(** * House layout generator: a shallow embedding of [HouseGenerator]

    The TypeScript service [HouseGenerator] turns a [HouseFormData] record
    into a [HouseLayout] (rooms, furniture) and a list of camera waypoints.
    JavaScript numbers are IEEE 754 binary64 values and are modelled by
    Rocq's primitive floats; the room counts, which the callers obtain with
    [parseInt], are integers ([Z]) and are injected into the floats where
    the source does arithmetic on them.  Strings are sequences of one-byte
    code units. *)

From Stdlib Require Import ZArith List Bool Lia.
From Stdlib Require Import Ascii String.
From Stdlib Require Import DecimalString DecimalNat.
From Stdlib Require Import Floats.
Import ListNotations.

Local Open Scope Z_scope.

(* ================================================================== *)
(** ** The JavaScript number layer *)

Module JS.

Local Open Scope float_scope.

(** An integer as a number: rounded to the nearest binary64. *)
Definition ofZ (z : Z) : float :=
  SF2Prim (binary_normalize prec emax z 0 false).

(** Truthiness of a number: [NaN], [+0] and [-0] are falsy. *)
Definition truthy (v : float) : bool :=
  negb (is_nan v || is_zero v).

(** [v || d] where [v] may be [undefined] (a missing array element). *)
Definition or_default (v : option float) (d : float) : float :=
  match v with
  | Some f => if truthy f then f else d
  | None => d
  end.

(** [Math.min] and [Math.max] of two arguments: [NaN] is contagious and
    [-0] counts as smaller than [+0]. *)
Definition Math_min (a b : float) : float :=
  if is_nan a || is_nan b then nan
  else if a <? b then a
  else if b <? a then b
  else if get_sign a then a else b.

Definition Math_max (a b : float) : float :=
  if is_nan a || is_nan b then nan
  else if a <? b then b
  else if b <? a then a
  else if get_sign a then b else a.

Definition Math_sqrt (a : float) : float := sqrt a.

(** [Math.ceil]: the least integral number not below the argument;
    [NaN], the zeros and the infinities are returned as they are, and a
    negative argument above [-1] gives [-0]. *)
Definition Math_ceil (a : float) : float :=
  match Prim2SF a with
  | S754_finite s m e =>
      if (0 <=? e)%Z then a
      else
        let d := Z.pow 2 (- e) in
        let n := Z.div (Zpos m) d in
        let r := Z.modulo (Zpos m) d in
        if s then (if (n =? 0)%Z then neg_zero else - ofZ n)
        else ofZ (if (r =? 0)%Z then n else n + 1)
  | _ => a
  end.

(** *** Strings *)

(** Code units that the pattern [\s] and [parseFloat]'s trimming treat
    as white space (tab, line feed, vertical tab, form feed, carriage
    return, space, no-break space). *)
Definition is_space (c : ascii) : bool :=
  let n := nat_of_ascii c in
  ((9 <=? n) && (n <=? 13) || (n =? 32) || (n =? 160))%nat.

Definition lower_char (c : ascii) : ascii :=
  let n := nat_of_ascii c in
  if ((65 <=? n) && (n <=? 90))%nat then ascii_of_nat (n + 32)
  else if ((192 <=? n) && (n <=? 222) && negb (n =? 215))%nat
       then ascii_of_nat (n + 32)
  else c.

Fixpoint toLowerCase (s : string) : string :=
  match s with
  | EmptyString => EmptyString
  | String c r => String (lower_char c) (toLowerCase r)
  end.

(** [s.replace(/\s/g, '')] *)
Fixpoint remove_spaces (s : string) : string :=
  match s with
  | EmptyString => EmptyString
  | String c r =>
      if is_space c then remove_spaces r else String c (remove_spaces r)
  end.

(** [s.includes(c)] for a one-character needle. *)
Fixpoint includes (s : string) (c : ascii) : bool :=
  match s with
  | EmptyString => false
  | String a r => Ascii.eqb a c || includes r c
  end.

(** [s.split(c)] for a one-character separator: never empty. *)
Fixpoint split (s : string) (c : ascii) : list string :=
  match s with
  | EmptyString => [EmptyString]
  | String a r =>
      if Ascii.eqb a c then EmptyString :: split r c
      else match split r c with
           | h :: t => String a h :: t
           | [] => [String a EmptyString]
           end
  end.

(** *** [parseFloat] *)

Definition digit_of (c : ascii) : option Z :=
  let n := nat_of_ascii c in
  if ((48 <=? n) && (n <=? 57))%nat then Some (Z.of_nat (n - 48)) else None.

(** The longest run of decimal digits at the head of [s]: its value
    continuing the accumulator [acc], its length, and the rest. *)
Fixpoint take_digits (s : string) (acc : Z) (len : nat) : Z * nat * string :=
  match s with
  | EmptyString => (acc, len, s)
  | String c r =>
      match digit_of c with
      | Some d => take_digits r (10 * acc + d)%Z (S len)
      | None => (acc, len, s)
      end
  end.

(** The optional [ExponentPart]: [e] or [E], an optional sign and at
    least one digit; without a digit the part is not there. *)
Definition take_exponent (s : string) : Z :=
  match s with
  | String c r =>
      if Ascii.eqb c "e" || Ascii.eqb c "E" then
        let '(neg, r') :=
          match r with
          | String "+" t => (false, t)
          | String "-" t => (true, t)
          | _ => (false, r)
          end in
        let '(v, len, _) := take_digits r' 0 0 in
        match len with
        | O => 0%Z
        | S _ => if neg then (- v)%Z else v
        end
      else 0%Z
  | EmptyString => 0%Z
  end.

(** The decimal number [m * 10^e] with its sign, rounded to the nearest
    binary64, ties to even. *)
Definition decimal_to_float (neg : bool) (m e : Z) : float :=
  match m with
  | Z0 => if neg then neg_zero else zero
  | _ =>
      if (0 <=? e)%Z then
        SF2Prim (binary_normalize prec emax
                   ((if neg then Z.opp m else m) * Z.pow 10 e) 0 false)
      else
        let '(q, e', l) :=
          SFdiv_core_binary prec emax m 0 (Z.pow 10 (- e)) 0 in
        SF2Prim (binary_round_aux prec emax neg q e' l)
  end.

(** The longest prefix that is a [StrUnsignedDecimalLiteral], as a
    number; [None] when there is none. *)
Definition unsigned_literal (neg : bool) (s : string) : option float :=
  if prefix "Infinity" s then Some (if neg then neg_infinity else infinity)
  else
    let '(ip, ilen, r) := take_digits s 0 0 in
    match ilen, r with
    | S _, String "." r' =>
        let '(m, flen, r'') := take_digits r' ip 0 in
        Some (decimal_to_float neg m (take_exponent r'' - Z.of_nat flen))
    | S _, _ => Some (decimal_to_float neg ip (take_exponent r))
    | O, String "." r' =>
        let '(m, flen, r'') := take_digits r' 0 0 in
        match flen with
        | O => None
        | S _ =>
            Some (decimal_to_float neg m (take_exponent r'' - Z.of_nat flen))
        end
    | O, _ => None
    end.

Fixpoint trim_start (s : string) : string :=
  match s with
  | String c r => if is_space c then trim_start r else s
  | EmptyString => s
  end.

(** The numeric prefix [parseFloat] reads, if any. *)
Definition numeric_prefix (s : string) : option float :=
  match trim_start s with
  | String "+" r => unsigned_literal false r
  | String "-" r => unsigned_literal true r
  | t => unsigned_literal false t
  end.

Definition parseFloat (s : string) : float :=
  match numeric_prefix s with
  | Some v => v
  | None => nan
  end.

(** [String(n)] for a positive integer below [10^21]: its decimal
    digits. *)
Definition string_of_index (n : nat) : string :=
  NilZero.string_of_uint (Nat.to_uint n).

End JS.

(* ================================================================== *)
(** ** The data model ([types/house]) *)

Inductive HouseType := single | double.
Inductive LocationType := city | village.
Inductive Style := modern | traditional.
Inductive RoomType := bedroom | bathroom | kitchen | living | dining | hallway.
Inductive FurnitureType := bed | sofa | table | chair | cabinet | appliance.

Module Position.
Record t := mk { x : float; y : float; z : float }.
End Position.

Module Dimensions.
Record t := mk { width : float; length : float; height : float }.
End Dimensions.

Module PlotSize.
Record t := mk { width : float; length : float }.
End PlotSize.

Module Furniture.
Record t := mk {
  id : string;
  name : string;
  type : FurnitureType;
  position : Position.t;
  rotation : float;
  dimensions : Dimensions.t
}.
End Furniture.

Module Room.
Record t := mk {
  id : string;
  name : string;
  type : RoomType;
  position : Position.t;
  dimensions : Dimensions.t;
  furniture : list Furniture.t
}.
End Room.

Module HouseFormData.
Record t := mk {
  plotSize : string;
  houseType : HouseType;
  bedrooms : Z;
  bathrooms : Z;
  kitchens : Z;
  locationType : LocationType;
  extraNotes : string
}.
End HouseFormData.

Module HouseLayout.
Record t := mk {
  width : float;
  length : float;
  height : float;
  floors : Z;
  rooms : list Room.t;
  style : Style
}.
End HouseLayout.

Module TourWaypoint.
Record t := mk {
  position : float * float * float;
  lookAt : float * float * float;
  duration : float;
  roomName : string
}.
End TourWaypoint.

Definition RoomType_eqb (a b : RoomType) : bool :=
  match a, b with
  | bedroom, bedroom | bathroom, bathroom | kitchen, kitchen
  | living, living | dining, dining | hallway, hallway => true
  | _, _ => false
  end.

(* ================================================================== *)
(** ** The generator ([services/houseGenerator]) *)

Set Warnings "-inexact-float".

Module HouseGenerator.

Import JS.
Local Open Scope string_scope.
Local Open Scope float_scope.

Definition ROOM_HEIGHT : float := 3.
Definition Math_PI : float := 3.141592653589793.

(** *** [parsePlotSize] *)

Definition parsePlotSize (plotSize : string) : PlotSize.t :=
  let size := remove_spaces (toLowerCase plotSize) in
  if includes size "x" then
    let parts := map parseFloat (split size "x") in
    let width := nth_error parts 0 in
    let length := nth_error parts 1 in
    PlotSize.mk (or_default width 20) (or_default length 30)
  else
    let numericSize := parseFloat size in
    if negb (is_nan numericSize) then PlotSize.mk numericSize numericSize
    else PlotSize.mk 20 30.

(** *** [calculateHouseDimensions] *)

Definition calculateHouseDimensions
    (plotSize : PlotSize.t) (formData : HouseFormData.t) : Dimensions.t :=
  let houseWidth := Math_min (PlotSize.width plotSize * 0.8) 25 in
  let houseLength := Math_min (PlotSize.length plotSize * 0.8) 35 in
  let floorHeight := ROOM_HEIGHT in
  let totalHeight :=
    match HouseFormData.houseType formData with
    | single => floorHeight
    | double => floorHeight * 2
    end in
  Dimensions.mk houseWidth houseLength totalHeight.

(** *** [generateRooms]

    The source walks a cursor [(currentX, currentZ)] over the plan while
    it pushes rooms; the three mutable variables are the state below and
    each [for] loop is a fold of its body over the indices
    [0 .. count-1]. *)

Record cursor := mkCursor {
  rooms : list Room.t;
  currentX : float;
  currentZ : float
}.

Definition push (st : cursor) (r : Room.t) : cursor :=
  mkCursor (rooms st ++ [r]) (currentX st) (currentZ st).

Definition for_loop (count : Z) (body : cursor -> nat -> cursor)
    (st : cursor) : cursor :=
  fold_left body (seq 0 (Z.to_nat count)) st.

Section Rooms.
Variable dimensions : Dimensions.t.
Variables roomWidth roomLength : float.

Definition kitchen_body (st : cursor) (i : nat) : cursor :=
  let st := push st
    (Room.mk ("kitchen-" ++ string_of_index (i + 1)%nat)%string
             ("Kitchen " ++ string_of_index (i + 1)%nat)%string
             kitchen
             (Position.mk (currentX st) 0 (currentZ st))
             (Dimensions.mk roomWidth roomLength ROOM_HEIGHT)
             []) in
  mkCursor (rooms st) (currentX st + roomWidth) (currentZ st).

Definition fits_in_row (st : cursor) : bool :=
  currentX st + roomWidth <=? Dimensions.width dimensions.

Definition dining_step (st : cursor) : cursor :=
  if fits_in_row st then
    let st := push st
      (Room.mk "dining-1" "Dining Room" dining
               (Position.mk (currentX st) 0 (currentZ st))
               (Dimensions.mk roomWidth roomLength ROOM_HEIGHT)
               []) in
    mkCursor (rooms st) (currentX st + roomWidth) (currentZ st)
  else st.

(** The test [currentX + roomWidth > dimensions.width] of the bedroom and
    bathroom loops, written with [<?] and its operands swapped. *)
Definition wrap_row (st : cursor) : cursor :=
  if Dimensions.width dimensions <? currentX st + roomWidth then
    mkCursor (rooms st) 0 (currentZ st + roomLength)
  else st.

Definition bedroom_body (st : cursor) (i : nat) : cursor :=
  let st := wrap_row st in
  let st := push st
    (Room.mk ("bedroom-" ++ string_of_index (i + 1)%nat)%string
             ("Bedroom " ++ string_of_index (i + 1)%nat)%string
             bedroom
             (Position.mk (currentX st) 0 (currentZ st))
             (Dimensions.mk roomWidth roomLength ROOM_HEIGHT)
             []) in
  mkCursor (rooms st) (currentX st + roomWidth) (currentZ st).

Definition bathroom_body (st : cursor) (i : nat) : cursor :=
  let st := wrap_row st in
  let st := push st
    (Room.mk ("bathroom-" ++ string_of_index (i + 1)%nat)%string
             ("Bathroom " ++ string_of_index (i + 1)%nat)%string
             bathroom
             (Position.mk (currentX st) 0 (currentZ st))
             (Dimensions.mk (roomWidth * 0.8) (roomLength * 0.8) ROOM_HEIGHT)
             []) in
  mkCursor (rooms st) (currentX st + roomWidth) (currentZ st).
End Rooms.

Definition living_room (roomWidth roomLength : float) : Room.t :=
  Room.mk "living-1" "Living Room" living
          (Position.mk 0 0 0)
          (Dimensions.mk (roomWidth * 1.5) (roomLength * 1.5) ROOM_HEIGHT)
          [].

Definition hallway_room (dimensions : Dimensions.t) : Room.t :=
  Room.mk "hallway-1" "Hallway" hallway
          (Position.mk 0 0 (-2))
          (Dimensions.mk (Dimensions.width dimensions) 2 ROOM_HEIGHT)
          [].

Definition room_divisor (formData : HouseFormData.t) : float :=
  Math_max 2 (Math_ceil (Math_sqrt (ofZ (HouseFormData.bedrooms formData) + 2))).

(** The cursor after the first row: living room, kitchens, dining room. *)
Definition after_kitchens (formData : HouseFormData.t)
    (roomWidth roomLength : float) : cursor :=
  let st := push (mkCursor [] 0 0) (living_room roomWidth roomLength) in
  let st := mkCursor (rooms st) (currentX st + roomWidth * 1.5) (currentZ st) in
  for_loop (HouseFormData.kitchens formData)
           (kitchen_body roomWidth roomLength) st.

Definition generateRooms (formData : HouseFormData.t)
    (dimensions : Dimensions.t) : list Room.t :=
  let roomWidth := Dimensions.width dimensions / room_divisor formData in
  let roomLength := Dimensions.length dimensions / room_divisor formData in
  let st := after_kitchens formData roomWidth roomLength in
  let st := dining_step dimensions roomWidth roomLength st in
  let st := mkCursor (rooms st) 0 (currentZ st + roomLength * 1.5) in
  let st := for_loop (HouseFormData.bedrooms formData)
              (bedroom_body dimensions roomWidth roomLength) st in
  let st := for_loop (HouseFormData.bathrooms formData)
              (bathroom_body dimensions roomWidth roomLength) st in
  let st := push st (hallway_room dimensions) in
  rooms st.

(** *** [addFurniture] *)

Definition item (id name : string) (type : FurnitureType)
    (px pz rotation w l h : float) : Furniture.t :=
  Furniture.mk id name type (Position.mk px 0 pz) rotation
               (Dimensions.mk w l h).

(** The [switch] on [room.type]: what is pushed on the fresh, empty
    [furniture] array; there is no [default] case. *)
Definition furniture_for (room : Room.t) : list Furniture.t :=
  let w := Dimensions.width (Room.dimensions room) in
  let l := Dimensions.length (Room.dimensions room) in
  let rid := Room.id room in
  match Room.type room with
  | living =>
      [ item "sofa-1" "Sofa" sofa (w * 0.2) (l * 0.3) 0 2.5 1 0.8;
        item "coffee-table-1" "Coffee Table" table (w * 0.5) (l * 0.5) 0
             1.2 0.8 0.5;
        item "tv-cabinet-1" "TV Cabinet" cabinet (w * 0.8) (l * 0.2) 0
             2 0.5 0.6;
        item "armchair-1" "Armchair" chair (w * 0.7) (l * 0.7)
             (Math_PI / 4) 0.8 0.8 0.9;
        item "side-table-1" "Side Table" table (w * 0.85) (l * 0.75) 0
             0.5 0.5 0.6 ]
  | bedroom =>
      [ item ("bed-" ++ rid)%string "Bed" bed (w * 0.3) (l * 0.4) 0
             1.6 2 0.6;
        item ("wardrobe-" ++ rid)%string "Wardrobe" cabinet
             (w * 0.1) (l * 0.1) 0 1.5 0.6 2.2;
        item ("nightstand-" ++ rid)%string "Nightstand" table
             (w * 0.6) (l * 0.3) 0 0.5 0.4 0.7;
        item ("dresser-" ++ rid)%string "Dresser" cabinet
             (w * 0.8) (l * 0.7) (Math_PI / 2) 1.2 0.5 1.0 ]
  | kitchen =>
      [ item ("counter-" ++ rid)%string "Kitchen Counter" cabinet
             (w * 0.1) (l * 0.2) 0 (w * 0.8) 0.6 0.9;
        item ("stove-" ++ rid)%string "Stove" appliance
             (w * 0.3) (l * 0.25) 0 0.6 0.6 0.9;
        item ("fridge-" ++ rid)%string "Refrigerator" appliance
             (w * 0.8) (l * 0.1) 0 0.7 0.7 1.8;
        item ("sink-" ++ rid)%string "Kitchen Sink" appliance
             (w * 0.5) (l * 0.25) 0 0.8 0.5 0.9;
        item ("island-" ++ rid)%string "Kitchen Island" table
             (w * 0.5) (l * 0.6) 0 1.5 1.0 0.9 ]
  | bathroom =>
      [ item ("toilet-" ++ rid)%string "Toilet" appliance
             (w * 0.2) (l * 0.2) 0 0.4 0.7 0.8;
        item ("sink-" ++ rid)%string "Bathroom Sink" appliance
             (w * 0.7) (l * 0.2) 0 0.6 0.4 0.8;
        item ("shower-" ++ rid)%string "Shower" appliance
             (w * 0.2) (l * 0.7) 0 0.9 0.9 2.0;
        item ("cabinet-" ++ rid)%string "Bathroom Cabinet" cabinet
             (w * 0.7) (l * 0.7) 0 0.6 0.3 1.8 ]
  | dining =>
      [ item ("dining-table-" ++ rid)%string "Dining Table" table
             (w * 0.5) (l * 0.5) 0 1.8 1.2 0.75;
        item ("dining-chairs-" ++ rid)%string "Dining Chairs" chair
             (w * 0.5) (l * 0.3) 0 0.5 0.5 0.9 ]
  | hallway => []
  end.

(** [{ ...room, furniture }] *)
Definition furnish (room : Room.t) : Room.t :=
  Room.mk (Room.id room) (Room.name room) (Room.type room)
          (Room.position room) (Room.dimensions room)
          (furniture_for room).

Definition addFurniture (rooms : list Room.t)
    (locationType : LocationType) : list Room.t :=
  map furnish rooms.

(** *** [generateTourWaypoints] *)

Definition exterior_view (dimensions : Dimensions.t) : TourWaypoint.t :=
  TourWaypoint.mk
    (Dimensions.width dimensions / 2, Dimensions.height dimensions + 5, -10)
    (Dimensions.width dimensions / 2, Dimensions.height dimensions / 2,
     Dimensions.length dimensions / 2)
    3 "Exterior View".

Definition final_view (dimensions : Dimensions.t) : TourWaypoint.t :=
  TourWaypoint.mk
    (Dimensions.width dimensions / 2, Dimensions.height dimensions + 3, -8)
    (Dimensions.width dimensions / 2, Dimensions.height dimensions / 2,
     Dimensions.length dimensions / 2)
    2 "Final View".

Definition room_view (room : Room.t) : TourWaypoint.t :=
  TourWaypoint.mk
    (Position.x (Room.position room)
       + Dimensions.width (Room.dimensions room) / 2,
     Dimensions.height (Room.dimensions room) / 2,
     Position.z (Room.position room)
       + Dimensions.length (Room.dimensions room) / 2)
    (Position.x (Room.position room)
       + Dimensions.width (Room.dimensions room) / 2,
     Dimensions.height (Room.dimensions room) / 2,
     Position.z (Room.position room)
       + Dimensions.length (Room.dimensions room) / 2)
    2 (Room.name room).

(** The callback of [rooms.forEach]: the waypoints array after one room. *)
Definition visit (waypoints : list TourWaypoint.t) (room : Room.t)
    : list TourWaypoint.t :=
  if negb (RoomType_eqb (Room.type room) hallway)
  then (waypoints ++ [room_view room])%list
  else waypoints.

Definition generateTourWaypoints (rooms : list Room.t)
    (dimensions : Dimensions.t) : list TourWaypoint.t :=
  let waypoints := ([] ++ [exterior_view dimensions])%list in
  let waypoints := fold_left visit rooms waypoints in
  (waypoints ++ [final_view dimensions])%list.

(** *** [generateHouse]

    Nothing in the body of the [try] throws, so the [catch] is never
    entered; the waypoints computed there are dropped. *)
Definition generateHouse (formData : HouseFormData.t) : HouseLayout.t :=
  let plotSize := parsePlotSize (HouseFormData.plotSize formData) in
  let houseDimensions := calculateHouseDimensions plotSize formData in
  let rooms := generateRooms formData houseDimensions in
  let furnishedRooms :=
    addFurniture rooms (HouseFormData.locationType formData) in
  let tourWaypoints :=
    generateTourWaypoints furnishedRooms houseDimensions in
  HouseLayout.mk
    (Dimensions.width houseDimensions)
    (Dimensions.length houseDimensions)
    (Dimensions.height houseDimensions)
    (match HouseFormData.houseType formData with
     | single => 1 | double => 2 end)%Z
    furnishedRooms
    (match HouseFormData.locationType formData with
     | city => modern | village => traditional end).

(** What the route handler does with a form: the layout, then the tour
    over the layout's rooms and dimensions. *)
Definition tour_of_layout (layout : HouseLayout.t) : list TourWaypoint.t :=
  generateTourWaypoints (HouseLayout.rooms layout)
    (Dimensions.mk (HouseLayout.width layout) (HouseLayout.length layout)
                   (HouseLayout.height layout)).

End HouseGenerator.

(* ================================================================== *)
(** ** The specification's reading of a plot size *)

Module PlotSpec.

Import JS.
Local Open Scope string_scope.

Fixpoint all_digits (s : string) : bool :=
  match s with
  | EmptyString => true
  | String c r =>
      match digit_of c with
      | Some _ => all_digits r
      | None => false
      end
  end.

Definition nonempty (s : string) : bool :=
  match s with EmptyString => false | String _ _ => true end.

(** "<number>": decimal digits, optionally followed by a point and more
    digits. *)
Definition is_number (s : string) : bool :=
  match split s "." with
  | [i] => nonempty i && all_digits i
  | [i; f] => nonempty i && all_digits i && nonempty f && all_digits f
  | _ => false
  end.

(** The two shapes the specification accepts, case-insensitive and
    whitespace-stripped: "<number>x<number>" or a single "<number>". *)
Definition parseable (raw : string) : bool :=
  let size := remove_spaces (toLowerCase raw) in
  match split size "x" with
  | [n] => is_number n
  | [w; l] => is_number w && is_number l
  | _ => false
  end.

(** "Any unparseable value": every other text. *)
Definition unparseable (raw : string) : bool := negb (parseable raw).

(** The fixed default of the specification. *)
Definition default_plot : PlotSize.t := PlotSize.mk 20%float 30%float.

End PlotSpec.

(* ================================================================== *)
(** ** The plan of a generated house, as the proofs describe it *)

Module Plan.

Import JS HouseGenerator.
Local Open Scope float_scope.

(** A room is known by its category and its number within it. *)
Definition room_key : Type := RoomType * nat.

Definition id_prefix (t : RoomType) : string :=
  match t with
  | living => "living-"
  | kitchen => "kitchen-"
  | dining => "dining-"
  | bedroom => "bedroom-"
  | bathroom => "bathroom-"
  | hallway => "hallway-"
  end.

Definition id_of_key (k : room_key) : string :=
  (id_prefix (fst k) ++ string_of_index (snd k))%string.

Definition room_tag (r : Room.t) : RoomType * string :=
  (Room.type r, Room.id r).

Definition key_tag (k : room_key) : RoomType * string :=
  (fst k, id_of_key k).

(** The rooms [t 1 .. t count] that a loop of the generator pushes. *)
Definition numbered (t : RoomType) (count : Z) : list room_key :=
  map (fun i => (t, (i + 1)%nat)) (seq 0 (Z.to_nat count)).

Definition roomWidth (formData : HouseFormData.t) (dimensions : Dimensions.t)
    : float :=
  Dimensions.width dimensions / room_divisor formData.

Definition roomLength (formData : HouseFormData.t) (dimensions : Dimensions.t)
    : float :=
  Dimensions.length dimensions / room_divisor formData.

(** The horizontal cursor after the living room (1.5 units) and [count]
    kitchens (one unit each), added in the order the source adds them. *)
Definition first_row_cursor (unit : float) (count : Z) : float :=
  fold_left (fun x (_ : nat) => x + unit) (seq 0 (Z.to_nat count))
            (0 + unit * 1.5).

(** The test of the source for the dining room: the cursor plus one more
    unit does not exceed the house width. *)
Definition dining_fits (formData : HouseFormData.t)
    (dimensions : Dimensions.t) : bool :=
  first_row_cursor (roomWidth formData dimensions)
                   (HouseFormData.kitchens formData)
    + roomWidth formData dimensions
  <=? Dimensions.width dimensions.

Definition room_keys (formData : HouseFormData.t)
    (dimensions : Dimensions.t) : list room_key :=
  [(living, 1%nat)]
  ++ numbered kitchen (HouseFormData.kitchens formData)
  ++ (if dining_fits formData dimensions then [(dining, 1%nat)] else [])
  ++ numbered bedroom (HouseFormData.bedrooms formData)
  ++ numbered bathroom (HouseFormData.bathrooms formData)
  ++ [(hallway, 1%nat)].

(** The dining room as the source builds it: at the first-row cursor, in
    the row of the living room and the kitchens. *)
Definition dining_room (formData : HouseFormData.t)
    (dimensions : Dimensions.t) : Room.t :=
  Room.mk "dining-1" "Dining Room" dining
    (Position.mk (first_row_cursor (roomWidth formData dimensions)
                                   (HouseFormData.kitchens formData)) 0 0)
    (Dimensions.mk (roomWidth formData dimensions)
                   (roomLength formData dimensions) ROOM_HEIGHT)
    [].

Definition non_hallway (r : Room.t) : bool :=
  negb (RoomType_eqb (Room.type r) hallway).

Definition furnished_categories : list RoomType :=
  [living; bedroom; kitchen; bathroom; dining].

End Plan.

(* ================================================================== *)
(** ** The catalogue of a generated house: names, sizes, furniture *)

Module Catalogue.

Import JS HouseGenerator Plan.
Local Open Scope string_scope.
Local Open Scope float_scope.

(** The display name the generator gives to a room. *)
Definition name_of_key (k : room_key) : string :=
  match fst k with
  | living => "Living Room"
  | dining => "Dining Room"
  | hallway => "Hallway"
  | kitchen => "Kitchen " ++ string_of_index (snd k)
  | bedroom => "Bedroom " ++ string_of_index (snd k)
  | bathroom => "Bathroom " ++ string_of_index (snd k)
  end.

Definition room_label (r : Room.t) : RoomType * string * string :=
  (Room.type r, Room.id r, Room.name r).

Definition key_label (k : room_key) : RoomType * string * string :=
  (fst k, id_of_key k, name_of_key k).

(** The size the generator gives to a room of each category, for a unit
    [unitW] by [unitL] in a house [houseWidth] wide. *)
Definition size_of (unitW unitL houseWidth : float) (t : RoomType)
    : Dimensions.t :=
  match t with
  | living => Dimensions.mk (unitW * 1.5) (unitL * 1.5) ROOM_HEIGHT
  | bathroom => Dimensions.mk (unitW * 0.8) (unitL * 0.8) ROOM_HEIGHT
  | hallway => Dimensions.mk houseWidth 2 ROOM_HEIGHT
  | kitchen | dining | bedroom => Dimensions.mk unitW unitL ROOM_HEIGHT
  end.

(** A room as [generateRooms] leaves it: on the ground, of the size of
    its category, unfurnished. *)
Definition plain_room (unitW unitL houseWidth : float) (r : Room.t) : Prop :=
  Position.y (Room.position r) = 0
  /\ Room.dimensions r = size_of unitW unitL houseWidth (Room.type r)
  /\ Room.furniture r = [].

(** The [i]-th kitchen (from 0) as the source builds it. *)
Definition kitchen_room (formData : HouseFormData.t)
    (dimensions : Dimensions.t) (i : nat) : Room.t :=
  Room.mk ("kitchen-" ++ string_of_index (i + 1)%nat)
          ("Kitchen " ++ string_of_index (i + 1)%nat)
          kitchen
          (Position.mk (first_row_cursor (roomWidth formData dimensions)
                                         (Z.of_nat i)) 0 0)
          (Dimensions.mk (roomWidth formData dimensions)
                         (roomLength formData dimensions) ROOM_HEIGHT)
          [].

(** The kitchens pushed for the indices [l] from the cursor [(x, z)]. *)
Fixpoint kitchens_from (unitW unitL x z : float) (l : list nat)
    : list Room.t :=
  match l with
  | [] => []
  | i :: l' =>
      Room.mk ("kitchen-" ++ string_of_index (i + 1)%nat)
              ("Kitchen " ++ string_of_index (i + 1)%nat)
              kitchen (Position.mk x 0 z)
              (Dimensions.mk unitW unitL ROOM_HEIGHT) []
      :: kitchens_from unitW unitL (x + unitW) z l'
  end.

(** What the wrapping test of the bedroom and bathroom loops ensures for
    a room: it starts a row, or one unit from its left edge does not
    exceed the house width. *)
Definition wrapped_or_fits (unitW houseWidth : float) (r : Room.t) : Prop :=
  match Room.type r with
  | bedroom | bathroom =>
      Position.x (Room.position r) = 0
      \/ (houseWidth <? Position.x (Room.position r) + unitW) = false
  | _ => True
  end.

(** The pieces of furniture of the templates. *)
Inductive piece :=
| Sofa | CoffeeTable | TvCabinet | Armchair | SideTable
| Bed | Wardrobe | Nightstand | Dresser
| Counter | Stove | Fridge | KitchenSink | Island
| Toilet | BathSink | Shower | BathCabinet
| DiningTable | DiningChairs.

Definition pieces_of (t : RoomType) : list piece :=
  match t with
  | living => [Sofa; CoffeeTable; TvCabinet; Armchair; SideTable]
  | bedroom => [Bed; Wardrobe; Nightstand; Dresser]
  | kitchen => [Counter; Stove; Fridge; KitchenSink; Island]
  | bathroom => [Toilet; BathSink; Shower; BathCabinet]
  | dining => [DiningTable; DiningChairs]
  | hallway => []
  end.

(** A furniture identifier up to the number of its room. *)
Definition piece_prefix (p : piece) : string :=
  match p with
  | Sofa => "sofa-"
  | CoffeeTable => "coffee-table-"
  | TvCabinet => "tv-cabinet-"
  | Armchair => "armchair-"
  | SideTable => "side-table-"
  | Bed => "bed-bedroom-"
  | Wardrobe => "wardrobe-bedroom-"
  | Nightstand => "nightstand-bedroom-"
  | Dresser => "dresser-bedroom-"
  | Counter => "counter-kitchen-"
  | Stove => "stove-kitchen-"
  | Fridge => "fridge-kitchen-"
  | KitchenSink => "sink-kitchen-"
  | Island => "island-kitchen-"
  | Toilet => "toilet-bathroom-"
  | BathSink => "sink-bathroom-"
  | Shower => "shower-bathroom-"
  | BathCabinet => "cabinet-bathroom-"
  | DiningTable => "dining-table-dining-"
  | DiningChairs => "dining-chairs-dining-"
  end.

Definition piece_key : Type := piece * nat.

Definition id_of_piece (k : piece_key) : string :=
  piece_prefix (fst k) ++ string_of_index (snd k).

(** The category whose template holds a piece. *)
Definition room_of_piece (p : piece) : RoomType :=
  match p with
  | Sofa | CoffeeTable | TvCabinet | Armchair | SideTable => living
  | Bed | Wardrobe | Nightstand | Dresser => bedroom
  | Counter | Stove | Fridge | KitchenSink | Island => kitchen
  | Toilet | BathSink | Shower | BathCabinet => bathroom
  | DiningTable | DiningChairs => dining
  end.

(** The living-room pieces carry the fixed number 1, the others the
    number of their room. *)
Definition piece_number (k : room_key) : nat :=
  match fst k with
  | living => 1%nat
  | _ => snd k
  end.

Definition pieces_of_key (k : room_key) : list piece_key :=
  map (fun p => (p, piece_number k)) (pieces_of (fst k)).

(** The rooms the tour visits: all but the hallway. *)
Definition visited_keys (formData : HouseFormData.t)
    (dimensions : Dimensions.t) : list room_key :=
  [(living, 1%nat)]
  ++ numbered kitchen (HouseFormData.kitchens formData)
  ++ (if dining_fits formData dimensions then [(dining, 1%nat)] else [])
  ++ numbered bedroom (HouseFormData.bedrooms formData)
  ++ numbered bathroom (HouseFormData.bathrooms formData).

(** All the furniture identifiers of a room list, room after room. *)
Definition furniture_ids (rooms : list Room.t) : list string :=
  flat_map (fun r => map Furniture.id (Room.furniture r)) rooms.

End Catalogue.

(* ================================================================== *)
(** ** The form ([components/HouseDesignForm]) *)

Module FormErrors.
Record t := mk {
  plotSize : option string;
  houseType : option string;
  bedrooms : option string;
  bathrooms : option string;
  kitchens : option string;
  locationType : option string
}.
End FormErrors.

Module Form.

Import JS.
Local Open Scope string_scope.

(** [s.trim()]: white space removed at both ends. *)
Fixpoint trim_end (s : string) : string :=
  match s with
  | EmptyString => EmptyString
  | String c r =>
      match trim_end r with
      | EmptyString => if is_space c then EmptyString else String c EmptyString
      | r' => String c r'
      end
  end.

Definition trim (s : string) : string := trim_end (trim_start s).

(** Truthiness of a string: only the empty string is falsy. *)
Definition truthy_string (s : string) : bool :=
  match s with EmptyString => false | String _ _ => true end.

(** The longest run of decimal digits at the head of [s] ([\d+] is
    greedy, and it cannot give digits back here): its length and the
    rest. *)
Fixpoint skip_digits (s : string) (len : nat) : nat * string :=
  match s with
  | EmptyString => (len, s)
  | String c r =>
      match digit_of c with
      | Some _ => skip_digits r (S len)
      | None => (len, s)
      end
  end.

(** The whole number that a run of digits at the head of [s] denotes, as
    [parseFloat] accumulates it. *)
Definition digits_value (s : string) : Z := fst (fst (take_digits s 0 0)).

(** [s.match(/^\d+x\d+$|^\d+$/)] is not [null]. *)
Definition matches_plot_pattern (s : string) : bool :=
  match skip_digits s 0 with
  | (O, _) => false
  | (S _, EmptyString) => true
  | (S _, String c r) =>
      if Ascii.eqb c "x" then
        match skip_digits r 0 with
        | (S _, EmptyString) => true
        | _ => false
        end
      else false
  end.

(** The double quote, as a text of one character. *)
Definition quote : string := String (ascii_of_nat 34) EmptyString.

(** The [newErrors] object that [validateForm] builds. *)
Definition form_errors (formData : HouseFormData.t) : FormErrors.t :=
  let plot_error :=
    if negb (truthy_string (trim (HouseFormData.plotSize formData)))
    then Some "Plot size is required"
    else
      let plotSize :=
        remove_spaces (toLowerCase (HouseFormData.plotSize formData)) in
      if negb (matches_plot_pattern plotSize)
      then Some ("Please enter plot size as " ++ quote ++ "width x length"
                 ++ quote ++ " or single dimension")
      else None in
  let bedrooms_error :=
    if (HouseFormData.bedrooms formData <? 1)%Z
       || (10 <? HouseFormData.bedrooms formData)%Z
    then Some "Bedrooms must be between 1 and 10" else None in
  let bathrooms_error :=
    if (HouseFormData.bathrooms formData <? 1)%Z
       || (5 <? HouseFormData.bathrooms formData)%Z
    then Some "Bathrooms must be between 1 and 5" else None in
  let kitchens_error :=
    if (HouseFormData.kitchens formData <? 1)%Z
       || (3 <? HouseFormData.kitchens formData)%Z
    then Some "Kitchens must be between 1 and 3" else None in
  FormErrors.mk plot_error None bedrooms_error bathrooms_error
                kitchens_error None.

Definition is_set (e : option string) : bool :=
  match e with Some _ => true | None => false end.

(** [Object.keys(newErrors).length === 0] *)
Definition no_errors (e : FormErrors.t) : bool :=
  negb (is_set (FormErrors.plotSize e) || is_set (FormErrors.houseType e)
        || is_set (FormErrors.bedrooms e) || is_set (FormErrors.bathrooms e)
        || is_set (FormErrors.kitchens e)
        || is_set (FormErrors.locationType e)).

Definition validateForm (formData : HouseFormData.t) : bool :=
  no_errors (form_errors formData).

End Form.

(* ================================================================== *)
(** ** The routes that call the generator *)

Module Route.

Import JS HouseGenerator.
Local Open Scope string_scope.

(** What a handler answers: a failure with its status and message, or the
    layout and the tour. *)
Inductive response :=
| failure (status : Z) (error : string)
| success (layout : HouseLayout.t) (tourWaypoints : list TourWaypoint.t).

(** The route that only asks for the required fields. The two enumerated
    fields are non-empty texts, hence truthy; the generator does not
    throw, so the [catch] is not entered. *)
Definition post_plain (formData : HouseFormData.t) : response :=
  if negb (Form.truthy_string (HouseFormData.plotSize formData))
  then failure 400 "Missing required fields"
  else
    let layout := generateHouse formData in
    success layout (tour_of_layout layout).

(** [parseInt(n)] for a whole number [n]: the number is printed and its
    digits are read back, which gives [n] as long as it prints in plain
    decimal; from [10^21] on it prints with an exponent, and that case is
    left out ([None]). *)
Definition parseInt_whole (n : Z) : option Z :=
  if (Z.abs n <? 10 ^ 21)%Z then Some n else None.

(** [n || d] on a whole number: zero is falsy. *)
Definition or_count (n d : Z) : Z := if (n =? 0)%Z then d else n.

(** [s || d] on a text: the empty text is falsy. *)
Definition or_text (s d : string) : string :=
  if Form.truthy_string s then s else d.

(** The form that the validating route builds from the body it receives,
    the form as the page sends it: each missing (falsy) field gets its
    default. The two enumerated fields are non-empty texts, hence kept. *)
Definition rebuild (body : HouseFormData.t) : option HouseFormData.t :=
  match parseInt_whole (HouseFormData.bedrooms body),
        parseInt_whole (HouseFormData.bathrooms body),
        parseInt_whole (HouseFormData.kitchens body) with
  | Some bedrooms, Some bathrooms, Some kitchens =>
      Some (HouseFormData.mk
              (or_text (HouseFormData.plotSize body) "20x30")
              (HouseFormData.houseType body)
              (or_count bedrooms 2)
              (or_count bathrooms 1)
              (or_count kitchens 1)
              (HouseFormData.locationType body)
              (or_text (HouseFormData.extraNotes body) ""))
  | _, _, _ => None
  end.

(** The checks of the validating route on the form it has built, in the
    order of the source: the first that fails answers. *)
Definition range_error (formData : HouseFormData.t) : option string :=
  if negb (Form.truthy_string (Form.trim (HouseFormData.plotSize formData)))
  then Some "Plot size is required"
  else if (HouseFormData.bedrooms formData <? 1)%Z
          || (10 <? HouseFormData.bedrooms formData)%Z
  then Some "Bedrooms must be between 1 and 10"
  else if (HouseFormData.bathrooms formData <? 1)%Z
          || (5 <? HouseFormData.bathrooms formData)%Z
  then Some "Bathrooms must be between 1 and 5"
  else if (HouseFormData.kitchens formData <? 1)%Z
          || (3 <? HouseFormData.kitchens formData)%Z
  then Some "Kitchens must be between 1 and 3"
  else None.

(** The validating route: the form is built from the body, checked, and
    given to the generator, which does not throw. [None] only for a body
    that [rebuild] leaves out. *)
Definition post_validated (body : HouseFormData.t) : option response :=
  match rebuild body with
  | None => None
  | Some formData =>
      Some match range_error formData with
           | Some e => failure 400 e
           | None =>
               let houseLayout := generateHouse formData in
               success houseLayout (tour_of_layout houseLayout)
           end
  end.

End Route.

(* ================================================================== *)
(** ** The viewer's room breakdown ([components/House3DViewer]) *)

Module Viewer.

(** [n || 0] on a count. *)
Definition or_zero (n : option Z) : Z :=
  match n with
  | Some v => if v =? 0 then 0 else v
  | None => 0
  end.

(** An object used as a record of counts: its keys in insertion order. *)
Definition counts : Type := list (RoomType * Z).

Fixpoint get (acc : counts) (t : RoomType) : option Z :=
  match acc with
  | [] => None
  | (k, n) :: rest => if RoomType_eqb k t then Some n else get rest t
  end.

(** [acc[t] = v]: an existing key keeps its place, a new one goes last. *)
Fixpoint set (acc : counts) (t : RoomType) (v : Z) : counts :=
  match acc with
  | [] => [(t, v)]
  | (k, n) :: rest =>
      if RoomType_eqb k t then (k, v) :: rest else (k, n) :: set rest t v
  end.

(** The callback of the [reduce]. *)
Definition tally (acc : counts) (room : Room.t) : counts :=
  set acc (Room.type room) (or_zero (get acc (Room.type room)) + 1).

(** [Object.entries(rooms.reduce(..., {}))] *)
Definition roomBreakdown (rooms : list Room.t) : counts :=
  fold_left tally rooms [].

(** How many rooms of a category a list holds. *)
Definition rooms_of (t : RoomType) (rooms : list Room.t) : Z :=
  Z.of_nat (List.length
              (filter (fun r => RoomType_eqb (Room.type r) t) rooms)).

End Viewer.

Import HouseGenerator.

(* ================================================================== *)
(** ** Numbers: comparison facts *)

Section FloatOrder.

Local Open Scope float_scope.

Lemma SFltb_asym (a b : spec_float) :
  SFltb a b = true -> SFltb b a = false.
Proof.
  unfold SFltb.
  destruct a as [sa | sa | | sa ma ea], b as [sb | sb | | sb mb eb];
    simpl; try destruct sa; try destruct sb; simpl;
    try discriminate; try reflexivity.
  all: rewrite (Z.compare_antisym ea eb);
    destruct (ea ?= eb)%Z; simpl; try discriminate; try reflexivity;
    replace (Pos.compare_cont Eq mb ma)
      with (CompOpp (Pos.compare_cont Eq ma mb))
      by (rewrite Pos.compare_cont_antisym; reflexivity);
    destruct (Pos.compare_cont Eq ma mb); simpl;
    try discriminate; reflexivity.
Qed.

Lemma ltb_asym (a b : float) : (a <? b) = true -> (b <? a) = false.
Proof. rewrite !ltb_spec. apply SFltb_asym. Qed.

Lemma ltb_irrefl (a : float) : (a <? a) = false.
Proof.
  destruct (a <? a) eqn:E; [ | reflexivity ].
  pose proof (ltb_asym _ _ E). congruence.
Qed.

Lemma ltb_nan_r (a : float) : (a <? nan) = false.
Proof.
  rewrite ltb_spec. unfold SFltb.
  replace (Prim2SF nan) with S754_nan by reflexivity.
  destruct (Prim2SF a); reflexivity.
Qed.

(** [Math.min] never exceeds its second argument. *)
Lemma Math_min_bound (a b : float) : (b <? JS.Math_min a b) = false.
Proof.
  unfold JS.Math_min.
  destruct (is_nan a || is_nan b); [ apply ltb_nan_r | ].
  destruct (a <? b) eqn:Hab; [ apply ltb_asym; exact Hab | ].
  destruct (b <? a) eqn:Hba; [ apply ltb_irrefl | ].
  destruct (get_sign a); [ exact Hba | apply ltb_irrefl ].
Qed.

End FloatOrder.

(* ================================================================== *)
(** ** Plot size and house dimensions *)

Section PlotAndDimensions.

Local Open Scope string_scope.
Local Open Scope float_scope.

Lemma split_cons (s : string) (c : ascii) :
  exists h t, JS.split s c = h :: t.
Proof.
  induction s as [ | a r IH ]; simpl.
  - eauto.
  - destruct (Ascii.eqb a c); [ eauto | ].
    destruct (JS.split r c); eauto.
Qed.

(** A text that contains the separator splits into at least two parts. *)
Lemma includes_split (s : string) (c : ascii) :
  JS.includes s c = true ->
  exists a b rest, JS.split s c = a :: b :: rest.
Proof.
  induction s as [ | a0 r IH ]; simpl; [ discriminate | ].
  destruct (Ascii.eqb a0 c); simpl.
  - intros _. destruct (split_cons r c) as (h & t & E).
    rewrite E. eauto.
  - intros H. destruct (IH H) as (a & b & rest & E).
    rewrite E. eauto.
Qed.

Lemma parseFloat_no_prefix (s : string) :
  JS.numeric_prefix s = None -> JS.parseFloat s = nan.
Proof. unfold JS.parseFloat. intros ->. reflexivity. Qed.

(** C1, as the code has it: the two examples of the specification hold;
    a text without an "x" from which no number can be read gives the
    default 20 by 30; a text with an "x" falls back per dimension: the
    width is what is read before the first "x", or 20 when nothing (or
    zero) is read there, and the length is what is read after it, or 30;
    so the default is returned when neither part yields a number. *)
Theorem parsePlotSize_fallback (raw : string) :
  let size := JS.remove_spaces (JS.toLowerCase raw) in
  parsePlotSize "20x30" = PlotSize.mk 20 30
  /\ parsePlotSize "25" = PlotSize.mk 25 25
  /\ (JS.includes size "x" = false ->
      JS.numeric_prefix size = None ->
      parsePlotSize raw = PlotSpec.default_plot)
  /\ (JS.includes size "x" = true ->
      exists w l rest,
        JS.split size "x" = w :: l :: rest
        /\ PlotSize.width (parsePlotSize raw)
           = (if JS.truthy (JS.parseFloat w) then JS.parseFloat w else 20)
        /\ PlotSize.length (parsePlotSize raw)
           = (if JS.truthy (JS.parseFloat l) then JS.parseFloat l else 30)
        /\ (JS.numeric_prefix w = None ->
            JS.numeric_prefix l = None ->
            parsePlotSize raw = PlotSpec.default_plot)).
Proof.
  intros size. split; [ vm_compute; reflexivity | ].
  split; [ vm_compute; reflexivity | ].
  split.
  - intros Hx Hn. unfold parsePlotSize. fold size. rewrite Hx.
    rewrite (parseFloat_no_prefix _ Hn). reflexivity.
  - intros Hx. destruct (includes_split _ _ Hx) as (w & l & rest & E).
    exists w, l, rest. split; [ exact E | ].
    unfold parsePlotSize. fold size. rewrite Hx, E. cbn [map nth_error].
    cbn [PlotSize.width PlotSize.length JS.or_default].
    repeat split.
    intros Hw Hl.
    rewrite (parseFloat_no_prefix _ Hw), (parseFloat_no_prefix _ Hl).
    reflexivity.
Qed.

(** The fallbacks of C1 at the texts the specification names: "garbage",
    the empty text and a bare "x". *)
Lemma parsePlotSize_fallback_witness :
  parsePlotSize "garbage" = PlotSpec.default_plot
  /\ parsePlotSize "" = PlotSpec.default_plot
  /\ parsePlotSize "x" = PlotSpec.default_plot.
Proof.
  split; [ | split ].
  - apply (parsePlotSize_fallback "garbage"); reflexivity.
  - apply (parsePlotSize_fallback ""); reflexivity.
  - destruct (parsePlotSize_fallback "x") as (_ & _ & _ & H).
    destruct (H eq_refl) as (w & l & rest & E & _ & _ & D).
    injection E as <- <- _. apply D; reflexivity.
Defined.

(** C1 as the specification words it fails: "25x" has neither of the
    two accepted shapes, and the code returns 25 by 30 for it, not the
    default. *)
Lemma parsePlotSize_unparseable_counterexample :
  PlotSpec.unparseable "25x" = true
  /\ parsePlotSize "25x" = PlotSize.mk 25 30
  /\ parsePlotSize "25x" <> PlotSpec.default_plot.
Proof.
  split; [ reflexivity | ].
  split; [ vm_compute; reflexivity | ].
  intros H.
  apply (f_equal (fun p => PrimFloat.ltb 20 (PlotSize.width p))) in H.
  vm_compute in H. discriminate.
Qed.

End PlotAndDimensions.

(* ================================================================== *)
(** ** Room identifiers *)

Section RoomIds.

Lemma to_uint_nonnil (n : nat) : Nat.to_uint n <> Decimal.Nil.
Proof.
  intros H.
  assert (E : n = 0%nat)
    by (rewrite <- (DecimalNat.Unsigned.of_to n), H; reflexivity).
  subst n. discriminate H.
Qed.

Lemma string_of_index_inj (n m : nat) :
  JS.string_of_index n = JS.string_of_index m -> n = m.
Proof.
  unfold JS.string_of_index. intros H.
  apply DecimalNat.Unsigned.to_uint_inj.
  pose proof (NilZero.usu _ (to_uint_nonnil n)) as Hn.
  pose proof (NilZero.usu _ (to_uint_nonnil m)) as Hm.
  rewrite H in Hn. congruence.
Qed.

Lemma append_cancel (p a b : string) :
  (p ++ a)%string = (p ++ b)%string -> a = b.
Proof.
  induction p as [ | c p IH ]; simpl; intros H; [ exact H | ].
  injection H as H. exact (IH H).
Qed.

(** Two rooms with the same identifier have the same category and the
    same number. *)
Lemma id_of_key_inj (k1 k2 : Plan.room_key) :
  Plan.id_of_key k1 = Plan.id_of_key k2 -> k1 = k2.
Proof.
  destruct k1 as [t1 n1], k2 as [t2 n2]. unfold Plan.id_of_key.
  cbn [fst snd]. intros H.
  destruct t1, t2; cbn [Plan.id_prefix] in H;
    try (cbn [String.append] in H; discriminate H);
    apply append_cancel, string_of_index_inj in H; congruence.
Qed.

End RoomIds.

(* ================================================================== *)
(** ** Row packing: what [generateRooms] pushes, and where *)

Section RoomPacking.

Import Plan.
Local Open Scope float_scope.

Variable formData : HouseFormData.t.
Variable dimensions : Dimensions.t.

Local Abbreviation rw := (roomWidth formData dimensions).
Local Abbreviation rl := (roomLength formData dimensions).

(** A loop whose body pushes one room tagged [f i] pushes the tags of its
    indices, in order. *)
Lemma fold_tags (body : cursor -> nat -> cursor) (f : nat -> RoomType * string) :
  (forall st i,
      map room_tag (rooms (body st i)) = map room_tag (rooms st) ++ [f i]) ->
  forall l st,
    map room_tag (rooms (fold_left body l st))
    = map room_tag (rooms st) ++ map f l.
Proof.
  intros Hbody l. induction l as [ | i l IH ]; intros st; simpl.
  - now rewrite app_nil_r.
  - rewrite IH, Hbody, <- app_assoc. reflexivity.
Qed.

(** A loop whose body only pushes keeps what was there as a prefix. *)
Lemma fold_extends (body : cursor -> nat -> cursor) :
  (forall st i, exists r, rooms (body st i) = rooms st ++ [r]) ->
  forall l st, exists tail, rooms (fold_left body l st) = rooms st ++ tail.
Proof.
  intros Hbody l. induction l as [ | i l IH ]; intros st; simpl.
  - exists []. now rewrite app_nil_r.
  - destruct (IH (body st i)) as (tail & E).
    destruct (Hbody st i) as (r & Er).
    exists (r :: tail). rewrite E, Er, <- app_assoc. reflexivity.
Qed.

Lemma wrap_row_rooms (st : cursor) :
  rooms (wrap_row dimensions rw rl st) = rooms st.
Proof. unfold wrap_row. now destruct (_ <? _). Qed.

Lemma kitchen_body_tag (st : cursor) (i : nat) :
  map room_tag (rooms (kitchen_body rw rl st i))
  = map room_tag (rooms st) ++ [key_tag (kitchen, (i + 1)%nat)].
Proof. unfold kitchen_body, push. cbn [rooms]. now rewrite map_app. Qed.

Lemma bedroom_body_tag (st : cursor) (i : nat) :
  map room_tag (rooms (bedroom_body dimensions rw rl st i))
  = map room_tag (rooms st) ++ [key_tag (bedroom, (i + 1)%nat)].
Proof.
  unfold bedroom_body, push. cbn [rooms].
  now rewrite map_app, wrap_row_rooms.
Qed.

Lemma bathroom_body_tag (st : cursor) (i : nat) :
  map room_tag (rooms (bathroom_body dimensions rw rl st i))
  = map room_tag (rooms st) ++ [key_tag (bathroom, (i + 1)%nat)].
Proof.
  unfold bathroom_body, push. cbn [rooms].
  now rewrite map_app, wrap_row_rooms.
Qed.

Lemma bedroom_body_extends (st : cursor) (i : nat) :
  exists r, rooms (bedroom_body dimensions rw rl st i) = rooms st ++ [r].
Proof.
  unfold bedroom_body, push. cbn [rooms]. rewrite wrap_row_rooms. eauto.
Qed.

Lemma bathroom_body_extends (st : cursor) (i : nat) :
  exists r, rooms (bathroom_body dimensions rw rl st i) = rooms st ++ [r].
Proof.
  unfold bathroom_body, push. cbn [rooms]. rewrite wrap_row_rooms. eauto.
Qed.

(** The kitchens move the cursor along the first row only. *)
Lemma kitchens_cursor (l : list nat) (st : cursor) :
  currentX (fold_left (kitchen_body rw rl) l st)
  = fold_left (fun x (_ : nat) => x + rw) l (currentX st)
  /\ currentZ (fold_left (kitchen_body rw rl) l st) = currentZ st.
Proof.
  revert st. induction l as [ | i l IH ]; intros st; simpl.
  - split; reflexivity.
  - destruct (IH (kitchen_body rw rl st i)) as (Hx & Hz).
    rewrite Hx, Hz. split; reflexivity.
Qed.

Lemma after_kitchens_cursor :
  currentX (after_kitchens formData rw rl)
  = first_row_cursor rw (HouseFormData.kitchens formData)
  /\ currentZ (after_kitchens formData rw rl) = 0.
Proof.
  unfold after_kitchens, for_loop, first_row_cursor.
  destruct (kitchens_cursor
              (seq 0 (Z.to_nat (HouseFormData.kitchens formData)))
              (mkCursor (rooms (push (mkCursor [] 0 0) (living_room rw rl)))
                 (currentX (push (mkCursor [] 0 0) (living_room rw rl))
                  + rw * 1.5)
                 (currentZ (push (mkCursor [] 0 0) (living_room rw rl)))))
    as (Hx & Hz).
  rewrite Hx, Hz. split; reflexivity.
Qed.

Lemma after_kitchens_tags :
  map room_tag (rooms (after_kitchens formData rw rl))
  = map key_tag
      ([(living, 1%nat)] ++ numbered kitchen (HouseFormData.kitchens formData)).
Proof.
  unfold after_kitchens, for_loop.
  rewrite (fold_tags _ _ kitchen_body_tag).
  unfold numbered. rewrite map_app, map_map. reflexivity.
Qed.

Lemma after_kitchens_length :
  List.length (rooms (after_kitchens formData rw rl))
  = S (Z.to_nat (HouseFormData.kitchens formData)).
Proof.
  rewrite <- (length_map room_tag), after_kitchens_tags.
  unfold numbered. rewrite length_map, length_app, length_map, length_seq.
  reflexivity.
Qed.

Lemma fits_in_row_after_kitchens :
  fits_in_row dimensions rw (after_kitchens formData rw rl)
  = dining_fits formData dimensions.
Proof.
  unfold fits_in_row, dining_fits.
  destruct after_kitchens_cursor as (-> & _). reflexivity.
Qed.

(** The first row: the dining room is pushed exactly when it fits. *)
Lemma dining_step_rooms :
  rooms (dining_step dimensions rw rl (after_kitchens formData rw rl))
  = rooms (after_kitchens formData rw rl)
    ++ (if dining_fits formData dimensions
        then [dining_room formData dimensions] else []).
Proof.
  unfold dining_step. rewrite fits_in_row_after_kitchens.
  destruct (dining_fits formData dimensions).
  - unfold push. cbn [rooms currentX currentZ].
    destruct after_kitchens_cursor as (-> & ->). reflexivity.
  - now rewrite app_nil_r.
Qed.

(** The room list, by category and identifier. *)
Lemma generateRooms_tags :
  map room_tag (generateRooms formData dimensions)
  = map key_tag (room_keys formData dimensions).
Proof.
  unfold generateRooms, for_loop.
  change (Dimensions.width dimensions / room_divisor formData) with rw.
  change (Dimensions.length dimensions / room_divisor formData) with rl.
  unfold push at 1. cbn [rooms].
  rewrite map_app, (fold_tags _ _ bathroom_body_tag).
  rewrite (fold_tags _ _ bedroom_body_tag). cbn [rooms].
  rewrite dining_step_rooms, map_app, after_kitchens_tags.
  unfold room_keys, numbered. rewrite !map_app, !map_map, <- !app_assoc.
  destruct (dining_fits formData dimensions); reflexivity.
Qed.

(** The room list starts with the first row as [dining_step] leaves it. *)
Lemma generateRooms_first_row :
  exists tail,
    generateRooms formData dimensions
    = rooms (after_kitchens formData rw rl)
      ++ (if dining_fits formData dimensions
          then [dining_room formData dimensions] else [])
      ++ tail.
Proof.
  unfold generateRooms, for_loop.
  change (Dimensions.width dimensions / room_divisor formData) with rw.
  change (Dimensions.length dimensions / room_divisor formData) with rl.
  unfold push at 1. cbn [rooms].
  destruct (fold_extends _ bathroom_body_extends
              (seq 0 (Z.to_nat (HouseFormData.bathrooms formData)))
              (fold_left (bedroom_body dimensions rw rl)
                 (seq 0 (Z.to_nat (HouseFormData.bedrooms formData)))
                 (mkCursor
                    (rooms (dining_step dimensions rw rl
                              (after_kitchens formData rw rl)))
                    0
                    (currentZ (dining_step dimensions rw rl
                                 (after_kitchens formData rw rl))
                     + rl * 1.5))))
    as (t2 & E2).
  rewrite E2.
  destruct (fold_extends _ bedroom_body_extends
              (seq 0 (Z.to_nat (HouseFormData.bedrooms formData)))
              (mkCursor
                 (rooms (dining_step dimensions rw rl
                           (after_kitchens formData rw rl)))
                 0
                 (currentZ (dining_step dimensions rw rl
                              (after_kitchens formData rw rl))
                  + rl * 1.5)))
    as (t1 & E1).
  rewrite E1. cbn [rooms]. rewrite dining_step_rooms.
  exists (t1 ++ t2 ++ [hallway_room dimensions]).
  rewrite <- !app_assoc. reflexivity.
Qed.

End RoomPacking.

(* ================================================================== *)
(** ** The room list: categories, identifiers, dining room *)

Section RoomList.

Import Plan.

Lemma map_fst_key_tag (l : list room_key) : map fst (map key_tag l) = map fst l.
Proof. rewrite map_map. reflexivity. Qed.

Lemma map_snd_key_tag (l : list room_key) :
  map snd (map key_tag l) = map id_of_key l.
Proof. rewrite map_map. reflexivity. Qed.

Lemma numbered_types (t : RoomType) (count : Z) :
  map fst (numbered t count) = repeat t (Z.to_nat count).
Proof.
  unfold numbered. rewrite map_map. cbn [fst].
  rewrite map_const, length_seq. reflexivity.
Qed.

Lemma numbered_NoDup (t : RoomType) (count : Z) : NoDup (numbered t count).
Proof.
  unfold numbered. apply NoDup_map_NoDup_ForallPairs; [ | apply seq_NoDup ].
  intros i j _ _ E. injection E as E. lia.
Qed.

Lemma numbered_type (t : RoomType) (count : Z) (k : room_key) :
  In k (numbered t count) -> fst k = t.
Proof.
  unfold numbered. rewrite in_map_iff. intros (i & <- & _). reflexivity.
Qed.

(** The categories of the room list, in order. *)
Lemma generateRooms_types (formData : HouseFormData.t)
    (dimensions : Dimensions.t) :
  map Room.type (generateRooms formData dimensions)
  = [living]
    ++ repeat kitchen (Z.to_nat (HouseFormData.kitchens formData))
    ++ (if dining_fits formData dimensions then [dining] else [])
    ++ repeat bedroom (Z.to_nat (HouseFormData.bedrooms formData))
    ++ repeat bathroom (Z.to_nat (HouseFormData.bathrooms formData))
    ++ [hallway].
Proof.
  change Room.type with (fun r => fst (room_tag r)).
  rewrite <- (map_map room_tag fst), generateRooms_tags, map_fst_key_tag.
  unfold room_keys. rewrite !map_app, !numbered_types.
  destruct (dining_fits formData dimensions); reflexivity.
Qed.

Lemma generateRooms_ids (formData : HouseFormData.t)
    (dimensions : Dimensions.t) :
  map Room.id (generateRooms formData dimensions)
  = map id_of_key (room_keys formData dimensions).
Proof.
  change Room.id with (fun r => snd (room_tag r)).
  rewrite <- (map_map room_tag snd), generateRooms_tags, map_snd_key_tag.
  reflexivity.
Qed.

Ltac other_category :=
  repeat (apply Forall_app; split);
  try (apply Forall_forall; intros ? Hin;
       apply numbered_type in Hin; rewrite Hin; discriminate);
  try (destruct (dining_fits _ _));
  repeat constructor; cbn [fst]; discriminate.

Lemma NoDup_app_category (t : RoomType) (l1 l2 : list room_key) :
  NoDup l1 -> NoDup l2 ->
  Forall (fun k => fst k = t) l1 -> Forall (fun k => fst k <> t) l2 ->
  NoDup (l1 ++ l2).
Proof.
  intros H1 H2 F1 F2. apply NoDup_app; trivial.
  intros k In1 In2.
  rewrite Forall_forall in F1, F2. exact (F2 k In2 (F1 k In1)).
Qed.

Lemma room_keys_NoDup (formData : HouseFormData.t)
    (dimensions : Dimensions.t) :
  NoDup (room_keys formData dimensions).
Proof.
  unfold room_keys.
  apply (NoDup_app_category living);
    [ repeat constructor; intros [] | | repeat constructor | other_category ].
  apply (NoDup_app_category kitchen);
    [ apply numbered_NoDup | | | other_category ];
    [ | apply Forall_forall; intros k Hin; exact (numbered_type _ _ _ Hin) ].
  apply (NoDup_app_category dining);
    [ destruct (dining_fits _ _); repeat constructor; intros []
    |
    | destruct (dining_fits _ _); repeat constructor
    | other_category ].
  apply (NoDup_app_category bedroom);
    [ apply numbered_NoDup | | | other_category ];
    [ | apply Forall_forall; intros k Hin; exact (numbered_type _ _ _ Hin) ].
  apply (NoDup_app_category bathroom);
    [ apply numbered_NoDup | | | other_category ];
    [ | apply Forall_forall; intros k Hin; exact (numbered_type _ _ _ Hin) ].
  repeat constructor. intros [].
Qed.

Lemma addFurniture_ids (rooms : list Room.t) (locationType : LocationType) :
  map Room.id (addFurniture rooms locationType) = map Room.id rooms.
Proof. unfold addFurniture. rewrite map_map. reflexivity. Qed.

(** C3: with non-negative counts, [generateRooms] returns (it is a total
    function) one living room, then the kitchens, then a dining room or
    none, then the bedrooms, the bathrooms and one hallway, in that order;
    the number of rooms is a function of the input. *)
Theorem generateRooms_categories
    (formData : HouseFormData.t) (dimensions : Dimensions.t)
    (Hk : 0 <= HouseFormData.kitchens formData)
    (Hb : 0 <= HouseFormData.bedrooms formData)
    (Ha : 0 <= HouseFormData.bathrooms formData) :
  let dining_rooms :=
    if dining_fits formData dimensions then [dining] else [] in
  map Room.type (generateRooms formData dimensions)
  = [living]
    ++ repeat kitchen (Z.to_nat (HouseFormData.kitchens formData))
    ++ dining_rooms
    ++ repeat bedroom (Z.to_nat (HouseFormData.bedrooms formData))
    ++ repeat bathroom (Z.to_nat (HouseFormData.bathrooms formData))
    ++ [hallway]
  /\ Z.of_nat (List.length (generateRooms formData dimensions))
     = 1 + HouseFormData.kitchens formData
       + Z.of_nat (List.length dining_rooms)
       + HouseFormData.bedrooms formData
       + HouseFormData.bathrooms formData + 1.
Proof.
  intros dining_rooms. split; [ apply generateRooms_types | ].
  rewrite <- (length_map Room.type), generateRooms_types.
  fold dining_rooms.
  rewrite !length_app, !repeat_length. cbn [List.length]. lia.
Qed.

(** C3 at the boundary: no bedroom, one kitchen, one bathroom. *)
Lemma generateRooms_categories_witness :
  map Room.type
    (generateRooms (HouseFormData.mk "20x30" single 0 1 1 city "")
                   (Dimensions.mk 16 24 3))
  = [living; kitchen; bathroom; hallway].
Proof.
  refine (proj1 (generateRooms_categories
                   (HouseFormData.mk "20x30" single 0 1 1 city "")
                   (Dimensions.mk 16 24 3) _ _ _)); cbn; lia.
Defined.

(** C4: the identifiers of the rooms of one generation are pairwise
    distinct, before and after the furniture is added. *)
Theorem room_ids_unique
    (formData : HouseFormData.t) (dimensions : Dimensions.t)
    (locationType : LocationType) :
  NoDup (map Room.id (generateRooms formData dimensions))
  /\ NoDup (map Room.id
              (addFurniture (generateRooms formData dimensions) locationType))
  /\ NoDup (map Room.id (HouseLayout.rooms (generateHouse formData))).
Proof.
  assert (G : forall fd d, NoDup (map Room.id (generateRooms fd d))).
  { intros fd d. rewrite generateRooms_ids.
    apply NoDup_map_NoDup_ForallPairs; [ | apply room_keys_NoDup ].
    intros k1 k2 _ _. apply id_of_key_inj. }
  split; [ apply G | ].
  split; [ rewrite addFurniture_ids; apply G | ].
  unfold generateHouse. cbn [HouseLayout.rooms].
  rewrite addFurniture_ids. apply G.
Qed.

(** C7: the room list has a dining room exactly when, after the living
    room (1.5 units) and the kitchens (one unit each), the cursor plus one
    more unit does not exceed the house width; the dining room then comes
    right after the kitchens, in the list and in the first row. *)
Theorem dining_room_iff_fits
    (formData : HouseFormData.t) (dimensions : Dimensions.t) :
  (In dining (map Room.type (generateRooms formData dimensions))
   <-> dining_fits formData dimensions = true)
  /\ (dining_fits formData dimensions = true ->
      nth_error (generateRooms formData dimensions)
                (S (Z.to_nat (HouseFormData.kitchens formData)))
      = Some (dining_room formData dimensions)).
Proof.
  split.
  - rewrite generateRooms_types. split.
    + destruct (dining_fits formData dimensions); [ reflexivity | ].
      rewrite !in_app_iff. cbn [In].
      intros [ [ E | [] ] | [ H | [ [] | [ H | [ H | [ E | [] ] ] ] ] ] ];
        try discriminate E; apply repeat_spec in H; discriminate H.
    + intros ->. rewrite !in_app_iff. cbn [In]. auto.
  - intros Hfit.
    destruct (generateRooms_first_row formData dimensions) as (tail & E).
    rewrite E, Hfit, nth_error_app2; rewrite after_kitchens_length;
      [ | apply le_n ].
    rewrite Nat.sub_diag. reflexivity.
Qed.

(** C7 on two houses 16 wide. With one kitchen and two bedrooms the unit
    is 8, the cursor after the first row is 20, and no dining room is
    pushed; with one kitchen and eight bedrooms the unit is 4, the cursor
    is 10, and the dining room is the third room, at x = 10. *)
Lemma dining_room_iff_fits_witness :
  ~ In dining
      (map Room.type
         (generateRooms (HouseFormData.mk "20x30" single 2 1 1 city "")
                        (Dimensions.mk 16 24 3)))
  /\ nth_error
       (generateRooms (HouseFormData.mk "20x30" single 8 1 1 city "")
                      (Dimensions.mk 16 24 3)) 2
     = Some (Room.mk "dining-1" "Dining Room" dining
                     (Position.mk 10 0 0) (Dimensions.mk 4 6 3) []).
Proof.
  split.
  - intros H.
    apply (proj1 (dining_room_iff_fits
                    (HouseFormData.mk "20x30" single 2 1 1 city "")
                    (Dimensions.mk 16 24 3))) in H.
    vm_compute in H. discriminate H.
  - exact (proj2 (dining_room_iff_fits
                    (HouseFormData.mk "20x30" single 8 1 1 city "")
                    (Dimensions.mk 16 24 3)) eq_refl).
Defined.

End RoomList.

(* ================================================================== *)
(** ** Furniture *)

Section Furnishing.

Import Plan.

(** C8: the room that [addFurniture] returns at a position has the
    identifier, name, category, position and dimensions of the input room
    at that position; only its furniture is new, and it is empty for a
    hallway, the one category outside the five furnished ones. The input
    list is a value and is not changed: the source builds a new array of
    new objects. *)
Theorem addFurniture_frame
    (rooms : list Room.t) (locationType : LocationType)
    (i : nat) (room : Room.t)
    (Hroom : nth_error rooms i = Some room) :
  List.length (addFurniture rooms locationType) = List.length rooms
  /\ exists out,
       nth_error (addFurniture rooms locationType) i = Some out
       /\ Room.id out = Room.id room
       /\ Room.name out = Room.name room
       /\ Room.type out = Room.type room
       /\ Room.position out = Room.position room
       /\ Room.dimensions out = Room.dimensions room
       /\ Room.furniture out = furniture_for room
       /\ (Room.type room = hallway -> Room.furniture out = [])
       /\ (~ In (Room.type room) furnished_categories ->
           Room.furniture out = []).
Proof.
  unfold addFurniture. split; [ apply length_map | ].
  exists (furnish room). split; [ now rewrite nth_error_map, Hroom | ].
  cbn [furnish Room.id Room.name Room.type Room.position Room.dimensions
       Room.furniture].
  repeat (split; [ reflexivity | ]). split.
  - unfold furniture_for. now intros ->.
  - unfold furniture_for, furnished_categories. cbn [In].
    destruct (Room.type room); try reflexivity; intros H; exfalso; apply H;
      auto 6.
Qed.

(** C8 on a hallway that arrives with a piece of furniture: it leaves
    with none, and is otherwise the same. *)
Lemma addFurniture_frame_witness :
  exists out,
    nth_error
      (addFurniture
         [Room.mk "hallway-1" "Hallway" hallway (Position.mk 0 0 (-2))
                  (Dimensions.mk 16 2 3)
                  [item "sofa-1" "Sofa" sofa 1 1 0 2.5 1 0.8]]
         village) 0 = Some out
    /\ Room.id out = "hallway-1"%string
    /\ Room.type out = hallway
    /\ Room.furniture out = [].
Proof.
  destruct (addFurniture_frame
              [Room.mk "hallway-1" "Hallway" hallway (Position.mk 0 0 (-2))
                       (Dimensions.mk 16 2 3)
                       [item "sofa-1" "Sofa" sofa 1 1 0 2.5 1 0.8]]
              village 0 _ eq_refl)
    as (_ & out & Hout & Hid & _ & Htype & _ & _ & _ & Hhall & _).
  exists out. split; [ exact Hout | ].
  split; [ exact Hid | ]. split; [ exact Htype | ].
  apply Hhall. reflexivity.
Defined.


End Furnishing.

(* ================================================================== *)
(** ** The camera tour *)

Section Tour.

Import Plan.
Local Open Scope float_scope.

Lemma visit_all (rooms : list Room.t) (acc : list TourWaypoint.t) :
  fold_left visit rooms acc
  = (acc ++ map room_view (filter non_hallway rooms))%list.
Proof.
  revert acc. induction rooms as [ | r rooms IH ]; intros acc; simpl.
  - now rewrite app_nil_r.
  - rewrite IH. unfold visit, non_hallway.
    destruct (negb (RoomType_eqb (Room.type r) hallway)); simpl.
    + now rewrite <- app_assoc.
    + reflexivity.
Qed.

(** The tour is the opening view, the views of the non-hallway rooms in
    the order of the room list, and the closing view. *)
Lemma generateTourWaypoints_eq (rooms : list Room.t)
    (dimensions : Dimensions.t) :
  generateTourWaypoints rooms dimensions
  = (exterior_view dimensions
     :: map room_view (filter non_hallway rooms)
     ++ [final_view dimensions])%list.
Proof. unfold generateTourWaypoints. rewrite visit_all. reflexivity. Qed.

(** C5: two waypoints more than there are non-hallway rooms; the first is
    the "Exterior View", the last the "Final View", and in between come
    the views of the non-hallway rooms in the order of the room list. *)
Theorem generateTourWaypoints_shape (rooms : list Room.t)
    (dimensions : Dimensions.t) :
  let visited := filter non_hallway rooms in
  List.length (generateTourWaypoints rooms dimensions)
  = (2 + List.length visited)%nat
  /\ exists first interior last,
       generateTourWaypoints rooms dimensions
       = (first :: interior ++ [last])%list
       /\ TourWaypoint.roomName first = "Exterior View"%string
       /\ TourWaypoint.roomName last = "Final View"%string
       /\ interior = map room_view visited
       /\ map TourWaypoint.roomName interior = map Room.name visited.
Proof.
  intros visited. rewrite generateTourWaypoints_eq. fold visited. split.
  - cbn [List.length]. rewrite length_app, length_map. cbn [List.length]. lia.
  - exists (exterior_view dimensions), (map room_view visited),
      (final_view dimensions).
    repeat (split; [ reflexivity | ]).
    rewrite map_map. reflexivity.
Qed.



End Tour.

(* ================================================================== *)
(** ** The pipeline *)

Section Pipeline.

(** C9: two forms with the same fields give the same layout and the same
    tour; the generator reads nothing but its argument. *)
Theorem generateHouse_deterministic (a b : HouseFormData.t)
    (Hplot : HouseFormData.plotSize a = HouseFormData.plotSize b)
    (Htype : HouseFormData.houseType a = HouseFormData.houseType b)
    (Hbed : HouseFormData.bedrooms a = HouseFormData.bedrooms b)
    (Hbath : HouseFormData.bathrooms a = HouseFormData.bathrooms b)
    (Hkit : HouseFormData.kitchens a = HouseFormData.kitchens b)
    (Hloc : HouseFormData.locationType a = HouseFormData.locationType b)
    (Hnotes : HouseFormData.extraNotes a = HouseFormData.extraNotes b) :
  generateHouse a = generateHouse b
  /\ tour_of_layout (generateHouse a) = tour_of_layout (generateHouse b).
Proof.
  destruct a, b. cbn in Hplot, Htype, Hbed, Hbath, Hkit, Hloc, Hnotes.
  subst. split; reflexivity.
Qed.

(** C9 on the form of the specification's scenario, submitted twice. *)
Lemma generateHouse_deterministic_witness :
  generateHouse (HouseFormData.mk "20x30" single 2 1 1 city "")
  = generateHouse (HouseFormData.mk "20x30" single 2 1 1 city "")
  /\ tour_of_layout
       (generateHouse (HouseFormData.mk "20x30" single 2 1 1 city ""))
     = tour_of_layout
         (generateHouse (HouseFormData.mk "20x30" single 2 1 1 city "")).
Proof.
  apply (generateHouse_deterministic
           (HouseFormData.mk "20x30" single 2 1 1 city "")
           (HouseFormData.mk "20x30" single 2 1 1 city ""));
    reflexivity.
Defined.

End Pipeline.

(* ================================================================== *)
(** ** Worked examples *)

Section Examples.

Local Open Scope string_scope.
Local Open Scope float_scope.

(** The two accepted shapes, and some texts that have neither. *)
Example parseable_shapes :
  PlotSpec.parseable "20x30" = true
  /\ PlotSpec.parseable " 20 X 30 " = true
  /\ PlotSpec.parseable "25" = true
  /\ PlotSpec.parseable "12.5x40" = true
  /\ PlotSpec.unparseable "" = true
  /\ PlotSpec.unparseable "garbage" = true
  /\ PlotSpec.unparseable "x" = true
  /\ PlotSpec.unparseable "x5" = true
  /\ PlotSpec.unparseable "25abc" = true
  /\ PlotSpec.unparseable "1x2x3" = true.
Proof. repeat split. Qed.

(** How lenient [parsePlotSize] is: case and blanks are ignored, a number
    is read up to the first character that cannot continue it, a zero
    counts as missing, and parts after a second "x" are dropped. *)
Example parsePlotSize_lenient :
  parsePlotSize " 20 X 30 " = PlotSize.mk 20 30
  /\ parsePlotSize "x5" = PlotSize.mk 20 5
  /\ parsePlotSize "25abc" = PlotSize.mk 25 25
  /\ parsePlotSize "0x0" = PlotSize.mk 20 30
  /\ parsePlotSize "1x2x3" = PlotSize.mk 1 2
  /\ parsePlotSize "12.5x4e1" = PlotSize.mk 12.5 40.
Proof. repeat split; vm_compute; reflexivity. Qed.

(** The scenario of the specification: a single-story city house on a
    20x30 plot with two bedrooms, one bathroom and one kitchen. *)
Example scenario_city_single :
  let layout :=
    generateHouse (HouseFormData.mk "20x30" single 2 1 1 city "") in
  HouseLayout.style layout = modern
  /\ HouseLayout.floors layout = 1%Z
  /\ (HouseLayout.width layout, HouseLayout.length layout,
      HouseLayout.height layout) = (16, 24, 3)
  /\ map Room.id (HouseLayout.rooms layout)
     = ["living-1"; "kitchen-1"; "bedroom-1"; "bedroom-2"; "bathroom-1";
        "hallway-1"]
  /\ map Room.type (HouseLayout.rooms layout)
     = [living; kitchen; bedroom; bedroom; bathroom; hallway]
  /\ map TourWaypoint.roomName (tour_of_layout layout)
     = ["Exterior View"; "Living Room"; "Kitchen 1"; "Bedroom 1";
        "Bedroom 2"; "Bathroom 1"; "Final View"].
Proof. repeat split; vm_compute; reflexivity. Qed.

(** The cap on the footprint: a plot of 1000 by 1000 gives a house of 25
    by 35, six metres high on two floors. *)
Example scenario_large_plot :
  calculateHouseDimensions (parsePlotSize "1000")
    (HouseFormData.mk "1000" double 3 2 1 village "")
  = Dimensions.mk 25 35 6.
Proof. vm_compute. reflexivity. Qed.

End Examples.

(* ================================================================== *)
(** ** More on the room list: geometry, names, the first row *)

Section LayoutInvariants.

Import Plan Catalogue.
Local Open Scope float_scope.

Variable formData : HouseFormData.t.
Variable dimensions : Dimensions.t.

Local Abbreviation uw := (roomWidth formData dimensions).
Local Abbreviation ul := (roomLength formData dimensions).

Lemma fold_projection {B : Type} (g : Room.t -> B)
    (body : cursor -> nat -> cursor) (f : nat -> B) :
  (forall st i, map g (rooms (body st i)) = map g (rooms st) ++ [f i]) ->
  forall l st,
    map g (rooms (fold_left body l st)) = map g (rooms st) ++ map f l.
Proof.
  intros Hbody l. induction l as [ | i l IH ]; intros st; simpl.
  - now rewrite app_nil_r.
  - rewrite IH, Hbody, <- app_assoc. reflexivity.
Qed.

Lemma fold_Forall (P : Room.t -> Prop) (body : cursor -> nat -> cursor) :
  (forall st i, Forall P (rooms st) -> Forall P (rooms (body st i))) ->
  forall l st, Forall P (rooms st) -> Forall P (rooms (fold_left body l st)).
Proof.
  intros Hbody l. induction l as [ | i l IH ]; intros st H; simpl.
  - exact H.
  - apply IH, Hbody, H.
Qed.

Lemma generateRooms_labels :
  map room_label (generateRooms formData dimensions)
  = map key_label (room_keys formData dimensions).
Proof.
  unfold generateRooms, for_loop.
  change (Dimensions.width dimensions / room_divisor formData) with uw.
  change (Dimensions.length dimensions / room_divisor formData) with ul.
  unfold push at 1. cbn [rooms].
  rewrite map_app.
  rewrite (fold_projection room_label _
             (fun i => key_label (bathroom, (i + 1)%nat))).
  2:{ intros st i. unfold bathroom_body, push. cbn [rooms].
      now rewrite map_app, wrap_row_rooms. }
  rewrite (fold_projection room_label _
             (fun i => key_label (bedroom, (i + 1)%nat))).
  2:{ intros st i. unfold bedroom_body, push. cbn [rooms].
      now rewrite map_app, wrap_row_rooms. }
  cbn [rooms]. rewrite dining_step_rooms, map_app.
  unfold after_kitchens, for_loop.
  rewrite (fold_projection room_label _
             (fun i => key_label (kitchen, (i + 1)%nat))).
  2:{ intros st i. unfold kitchen_body, push. cbn [rooms].
      now rewrite map_app. }
  unfold room_keys, numbered. rewrite !map_app, !map_map, <- !app_assoc.
  destruct (dining_fits formData dimensions); reflexivity.
Qed.

Lemma generateRooms_names :
  map Room.name (generateRooms formData dimensions)
  = map name_of_key (room_keys formData dimensions).
Proof.
  change Room.name with (fun r => snd (room_label r)).
  rewrite <- (map_map room_label snd), generateRooms_labels, map_map.
  reflexivity.
Qed.

Lemma plain_kitchen (st : cursor) (i : nat) :
  Forall (plain_room uw ul (Dimensions.width dimensions)) (rooms st) ->
  Forall (plain_room uw ul (Dimensions.width dimensions))
         (rooms (kitchen_body uw ul st i)).
Proof.
  intros H. unfold kitchen_body, push. cbn [rooms].
  apply Forall_app. split; [ exact H | ].
  repeat constructor.
Qed.

Lemma plain_bedroom (st : cursor) (i : nat) :
  Forall (plain_room uw ul (Dimensions.width dimensions)) (rooms st) ->
  Forall (plain_room uw ul (Dimensions.width dimensions))
         (rooms (bedroom_body dimensions uw ul st i)).
Proof.
  intros H. unfold bedroom_body, push. cbn [rooms].
  rewrite wrap_row_rooms.
  apply Forall_app. split; [ exact H | ].
  repeat constructor.
Qed.

Lemma plain_bathroom (st : cursor) (i : nat) :
  Forall (plain_room uw ul (Dimensions.width dimensions)) (rooms st) ->
  Forall (plain_room uw ul (Dimensions.width dimensions))
         (rooms (bathroom_body dimensions uw ul st i)).
Proof.
  intros H. unfold bathroom_body, push. cbn [rooms].
  rewrite wrap_row_rooms.
  apply Forall_app. split; [ exact H | ].
  repeat constructor.
Qed.

(** X1: every room of [generateRooms] stands on the ground ([y = 0]), has the
    size of its category (1.5 units for the living room, 0.8 for a
    bathroom, one unit otherwise, the house width by 2 for the hallway),
    is 3 high, and has no furniture yet. *)
Theorem generateRooms_plain :
  Forall (plain_room uw ul (Dimensions.width dimensions))
         (generateRooms formData dimensions).
Proof.
  unfold generateRooms.
  change (Dimensions.width dimensions / room_divisor formData) with uw.
  change (Dimensions.length dimensions / room_divisor formData) with ul.
  unfold push at 1. cbn [rooms].
  apply Forall_app. split; [ | repeat constructor ].
  unfold for_loop.
  apply (fold_Forall _ _ plain_bathroom).
  apply (fold_Forall _ _ plain_bedroom). cbn [rooms].
  rewrite dining_step_rooms.
  apply Forall_app. split.
  - unfold after_kitchens, for_loop.
    apply (fold_Forall _ _ plain_kitchen). cbn [rooms push].
    repeat constructor.
  - destruct (dining_fits formData dimensions); repeat constructor.
Qed.

Lemma fold_ignores_indices (f : float -> float) (n s s' : nat) (x : float) :
  fold_left (fun a (_ : nat) => f a) (seq s n) x
  = fold_left (fun a (_ : nat) => f a) (seq s' n) x.
Proof.
  revert s s' x. induction n as [ | n IH ]; intros s s' x; simpl.
  - reflexivity.
  - apply IH.
Qed.

Lemma kitchens_pushed (l : list nat) (st : cursor) :
  rooms (fold_left (kitchen_body uw ul) l st)
  = rooms st ++ kitchens_from uw ul (currentX st) (currentZ st) l.
Proof.
  revert st. induction l as [ | i l IH ]; intros st;
    cbn [fold_left kitchens_from].
  - now rewrite app_nil_r.
  - rewrite IH. unfold kitchen_body, push.
    cbn [rooms currentX currentZ]. rewrite <- app_assoc. reflexivity.
Qed.

Lemma kitchens_from_nth (n s i : nat) (x z : float) :
  (i < n)%nat ->
  nth_error (kitchens_from uw ul x z (seq s n)) i
  = Some (Room.mk ("kitchen-" ++ JS.string_of_index (s + i + 1)%nat)%string
                  ("Kitchen " ++ JS.string_of_index (s + i + 1)%nat)%string
                  kitchen
                  (Position.mk
                     (fold_left (fun a (_ : nat) => a + uw) (seq 0 i) x) 0 z)
                  (Dimensions.mk uw ul ROOM_HEIGHT) []).
Proof.
  revert s i x. induction n as [ | n IH ]; intros s i x Hi; [ lia | ].
  destruct i as [ | i ]; cbn [seq kitchens_from nth_error].
  - rewrite Nat.add_0_r. reflexivity.
  - rewrite IH by lia. cbn [fold_left].
    rewrite (fold_ignores_indices (fun a => a + uw) i 1 0).
    replace (S s + i + 1)%nat with (s + S i + 1)%nat by lia.
    reflexivity.
Qed.

Lemma after_kitchens_rooms :
  rooms (after_kitchens formData uw ul)
  = living_room uw ul
    :: kitchens_from uw ul (0 + uw * 1.5) 0
         (seq 0 (Z.to_nat (HouseFormData.kitchens formData))).
Proof.
  unfold after_kitchens, for_loop. rewrite kitchens_pushed. reflexivity.
Qed.


(** X3: the kitchens stand side by side in the first row: kitchen [i + 1] is
    room number [i + 1] of the list and starts where the living room and
    the [i] kitchens before it end. *)
Theorem generateRooms_kitchen (i : nat)
    (Hi : (i < Z.to_nat (HouseFormData.kitchens formData))%nat) :
  nth_error (generateRooms formData dimensions) (S i)
  = Some (kitchen_room formData dimensions i).
Proof.
  destruct (generateRooms_first_row formData dimensions) as (tail & E).
  rewrite E, nth_error_app1.
  2:{ rewrite after_kitchens_length. lia. }
  rewrite after_kitchens_rooms. cbn [nth_error].
  rewrite kitchens_from_nth by exact Hi.
  unfold kitchen_room, first_row_cursor. rewrite Nat2Z.id. reflexivity.
Qed.

End LayoutInvariants.

(** The second of three kitchens in a house 16 wide with eight bedrooms:
    the unit is 4, the living room ends at 6, so the kitchen is at 10. *)
Lemma generateRooms_kitchen_witness :
  nth_error
    (generateRooms (HouseFormData.mk "20x30" single 8 1 3 city "")
                   (Dimensions.mk 16 24 3)) 2
  = Some (Room.mk "kitchen-2" "Kitchen 2" kitchen
                  (Position.mk 10%float 0%float 0%float)
                  (Dimensions.mk 4%float 6%float 3%float) []).
Proof.
  refine (generateRooms_kitchen
            (HouseFormData.mk "20x30" single 8 1 3 city "")
            (Dimensions.mk 16 24 3) 1 _).
  cbn. lia.
Defined.

(* ================================================================== *)
(** ** Furnishing and touring a generated house *)

Section FurnishedHouse.

Import Plan Catalogue.

Lemma furnish_furnish (r : Room.t) : furnish (furnish r) = furnish r.
Proof. destruct r as [i n t p d f]. destruct t; reflexivity. Qed.

(** X4: furnishing twice is furnishing once: [addFurniture] replaces whatever
    furniture a room had by the template of its category, whichever the
    styles of the two calls. *)
Theorem addFurniture_idempotent (rooms : list Room.t)
    (first second : LocationType) :
  addFurniture (addFurniture rooms first) second = addFurniture rooms first.
Proof.
  unfold addFurniture. rewrite map_map.
  apply map_ext. intros r. apply furnish_furnish.
Qed.

Lemma room_view_furnish (r : Room.t) : room_view (furnish r) = room_view r.
Proof. reflexivity. Qed.

Lemma non_hallway_furnish (r : Room.t) :
  non_hallway (furnish r) = non_hallway r.
Proof. reflexivity. Qed.

Lemma generateTourWaypoints_ignores_furniture_aux (rooms : list Room.t)
    (locationType : LocationType) (dimensions : Dimensions.t) :
  generateTourWaypoints (addFurniture rooms locationType) dimensions
  = generateTourWaypoints rooms dimensions.
Proof.
  rewrite !generateTourWaypoints_eq. unfold addFurniture.
  rewrite filter_map_swap, map_map.
  reflexivity.
Qed.

(** X5: the tour does not depend on the furniture: the waypoints of the
    furnished rooms are those of the rooms as generated, so the tour the
    route computes from the layout is the tour of the unfurnished plan. *)
Theorem generateTourWaypoints_ignores_furniture (rooms : list Room.t)
    (locationType : LocationType) (dimensions : Dimensions.t)
    (formData : HouseFormData.t) :
  generateTourWaypoints (addFurniture rooms locationType) dimensions
  = generateTourWaypoints rooms dimensions
  /\ tour_of_layout (generateHouse formData)
     = generateTourWaypoints
         (generateRooms formData
            (calculateHouseDimensions
               (parsePlotSize (HouseFormData.plotSize formData)) formData))
         (calculateHouseDimensions
            (parsePlotSize (HouseFormData.plotSize formData)) formData).
Proof.
  split; [ apply generateTourWaypoints_ignores_furniture_aux | ].
  unfold tour_of_layout, generateHouse.
  cbn [HouseLayout.rooms HouseLayout.width HouseLayout.length
       HouseLayout.height].
  rewrite generateTourWaypoints_ignores_furniture_aux.
  f_equal.
Qed.

Lemma room_keys_visited (formData : HouseFormData.t)
    (dimensions : Dimensions.t) :
  room_keys formData dimensions
  = visited_keys formData dimensions ++ [(hallway, 1%nat)].
Proof. unfold room_keys, visited_keys. now rewrite <- !app_assoc. Qed.

Lemma visited_keys_not_hallway (formData : HouseFormData.t)
    (dimensions : Dimensions.t) (k : room_key) :
  In k (visited_keys formData dimensions) -> fst k <> hallway.
Proof.
  unfold visited_keys. cbn [app In].
  intros [ <- | H ]; [ discriminate | ].
  rewrite !in_app_iff in H.
  destruct H as [ H | [ H | [ H | H ] ] ];
    try (apply numbered_type in H; rewrite H; discriminate).
  destruct (dining_fits formData dimensions); cbn [In] in H;
    [ destruct H as [ <- | [] ]; discriminate | destruct H ].
Qed.

Lemma filter_all {A : Type} (p : A -> bool) (l : list A) :
  (forall x, In x l -> p x = true) -> filter p l = l.
Proof.
  induction l as [ | a l IH ]; intros H; cbn [filter]; [ reflexivity | ].
  rewrite (H a (or_introl eq_refl)), IH; [ reflexivity | ].
  intros x Hx. apply H. now right.
Qed.

(** The names of the rooms of a generated house that the tour visits. *)
Lemma visited_names (formData : HouseFormData.t)
    (dimensions : Dimensions.t) :
  map Room.name (filter non_hallway (generateRooms formData dimensions))
  = map name_of_key (visited_keys formData dimensions).
Proof.
  assert (E : forall l : list Room.t,
             map Room.name (filter non_hallway l)
             = map (fun lab => snd lab)
                 (filter (fun lab => negb (RoomType_eqb (fst (fst lab)) hallway))
                         (map room_label l))).
  { intros l. rewrite filter_map_swap, map_map. reflexivity. }
  rewrite E, generateRooms_labels, filter_map_swap, map_map.
  cbn [key_label fst snd].
  rewrite room_keys_visited, filter_app. cbn [filter fst RoomType_eqb negb].
  rewrite app_nil_r, filter_all; [ reflexivity | ].
  intros k Hk. apply visited_keys_not_hallway in Hk.
  destruct (fst k); try reflexivity. now elim Hk.
Qed.

Lemma tour_labels_eq (formData : HouseFormData.t) :
  map TourWaypoint.roomName (tour_of_layout (generateHouse formData))
  = "Exterior View"%string
    :: map name_of_key
         (visited_keys formData
            (calculateHouseDimensions
               (parsePlotSize (HouseFormData.plotSize formData)) formData))
    ++ ["Final View"%string].
Proof.
  unfold tour_of_layout, generateHouse. cbn [HouseLayout.rooms].
  rewrite generateTourWaypoints_ignores_furniture_aux.
  rewrite generateTourWaypoints_eq. cbn [map].
  rewrite map_app, map_map. cbn [map].
  change (fun x => TourWaypoint.roomName (room_view x)) with Room.name.
  rewrite visited_names. reflexivity.
Qed.

(** X6: the labels of the tour of a generated house: the opening view, the
    names of all the rooms but the hallway in the order of the room list,
    and the closing view; one waypoint more than there are rooms. *)
Theorem generated_tour_labels (formData : HouseFormData.t) :
  let layout := generateHouse formData in
  let dimensions :=
    calculateHouseDimensions
      (parsePlotSize (HouseFormData.plotSize formData)) formData in
  map TourWaypoint.roomName (tour_of_layout layout)
  = "Exterior View"%string
    :: map name_of_key (visited_keys formData dimensions)
    ++ ["Final View"%string]
  /\ List.length (tour_of_layout layout)
     = S (List.length (HouseLayout.rooms layout)).
Proof.
  intros layout dimensions.
  split; [ apply tour_labels_eq | ].
  rewrite <- (length_map TourWaypoint.roomName).
  unfold layout. rewrite tour_labels_eq.
  unfold generateHouse. cbn [HouseLayout.rooms].
  fold dimensions. unfold addFurniture.
  rewrite length_map, <- (length_map room_label), generateRooms_labels.
  rewrite length_map, room_keys_visited.
  cbn [List.length]. rewrite !length_app, length_map. cbn [List.length]. lia.
Qed.

End FurnishedHouse.

(* ================================================================== *)
(** ** Names and furniture identifiers are unique *)

Section Uniqueness.

Import Plan Catalogue.

Ltac differ H := cbn [String.append] in H; discriminate H.

(** The living room, the dining room and the hallway carry number 1. *)
Lemma room_keys_single (formData : HouseFormData.t)
    (dimensions : Dimensions.t) (k : room_key) :
  In k (room_keys formData dimensions) ->
  fst k = living \/ fst k = dining \/ fst k = hallway ->
  snd k = 1%nat.
Proof.
  unfold room_keys. cbn [app In].
  intros [ <- | H ] Ht; [ reflexivity | ].
  rewrite !in_app_iff in H.
  destruct H as [ H | [ H | [ H | [ H | H ] ] ] ];
    try (apply numbered_type in H; rewrite H in Ht;
         destruct Ht as [ Ht | [ Ht | Ht ] ]; discriminate Ht).
  - destruct (dining_fits formData dimensions); cbn [In] in H;
      [ destruct H as [ <- | [] ]; reflexivity | destruct H ].
  - cbn [In] in H. destruct H as [ <- | [] ]. reflexivity.
Qed.

Lemma name_of_key_inj (formData : HouseFormData.t)
    (dimensions : Dimensions.t) (k1 k2 : room_key) :
  In k1 (room_keys formData dimensions) ->
  In k2 (room_keys formData dimensions) ->
  name_of_key k1 = name_of_key k2 -> k1 = k2.
Proof.
  intros H1 H2 E.
  pose proof (room_keys_single _ _ _ H1) as S1.
  pose proof (room_keys_single _ _ _ H2) as S2.
  destruct k1 as [t1 n1], k2 as [t2 n2]. unfold name_of_key in E.
  cbn [fst snd] in *.
  destruct t1, t2; try differ E;
    try (apply append_cancel, string_of_index_inj in E; congruence);
    rewrite S1, S2 by auto; reflexivity.
Qed.

Lemma name_not_a_view (k : room_key) :
  name_of_key k <> "Exterior View"%string
  /\ name_of_key k <> "Final View"%string.
Proof.
  destruct k as [t n]. unfold name_of_key. cbn [fst snd].
  destruct t; split; intros E; differ E.
Qed.

Lemma visited_in_room_keys (formData : HouseFormData.t)
    (dimensions : Dimensions.t) (k : room_key) :
  In k (visited_keys formData dimensions) ->
  In k (room_keys formData dimensions).
Proof. rewrite room_keys_visited, in_app_iff. auto. Qed.

(** X7: the labels of the tour of a generated house are pairwise distinct,
    and so are the names of its rooms. *)
Theorem generated_tour_labels_unique (formData : HouseFormData.t) :
  NoDup (map TourWaypoint.roomName (tour_of_layout (generateHouse formData)))
  /\ NoDup (map Room.name (HouseLayout.rooms (generateHouse formData))).
Proof.
  split.
  - rewrite tour_labels_eq.
    set (d := calculateHouseDimensions _ _).
    assert (N : NoDup (map name_of_key (visited_keys formData d))).
    { apply NoDup_map_NoDup_ForallPairs.
      - intros k1 k2 H1 H2.
        apply (name_of_key_inj formData d); now apply visited_in_room_keys.
      - pose proof (room_keys_NoDup formData d) as K.
        rewrite room_keys_visited in K.
        exact (NoDup_app_remove_r _ _ K). }
    assert (V : forall v,
               v = "Exterior View"%string \/ v = "Final View"%string ->
               ~ In v (map name_of_key (visited_keys formData d))).
    { intros v Hv Hin. apply in_map_iff in Hin. destruct Hin as (k & E & _).
      destruct (name_not_a_view k) as (A & B).
      destruct Hv as [ -> | -> ]; [ exact (A E) | exact (B E) ]. }
    constructor.
    + rewrite in_app_iff. cbn [In].
      intros [ H | [ H | [] ] ]; [ | discriminate H ].
      exact (V _ (or_introl eq_refl) H).
    + apply NoDup_app; [ exact N | repeat constructor; intros [] | ].
      intros v Hin [ <- | [] ]. exact (V _ (or_intror eq_refl) Hin).
  - unfold generateHouse. cbn [HouseLayout.rooms].
    set (d := calculateHouseDimensions _ _).
    unfold addFurniture. rewrite map_map.
    change (fun x => Room.name (furnish x)) with Room.name.
    rewrite generateRooms_names.
    apply NoDup_map_NoDup_ForallPairs; [ | apply room_keys_NoDup ].
    intros k1 k2. apply name_of_key_inj.
Qed.

(** *** Furniture identifiers *)

Ltac distinct_ids :=
  repeat constructor; cbn [In];
  repeat match goal with
         | |- ~ _ => intros H
         | H : _ \/ _ |- _ => destruct H as [ H | H ]
         | H : False |- _ => destruct H
         | H : _ = _ |- _ => differ H
         end.

(** X8: within one room, whatever its identifier, the pieces of furniture
    that [addFurniture] attaches have pairwise distinct identifiers. *)
Theorem furniture_ids_distinct_in_room (room : Room.t) :
  NoDup (map Furniture.id (furniture_for room))
  /\ NoDup (map Furniture.id (Room.furniture (furnish room))).
Proof.
  assert (N : NoDup (map Furniture.id (furniture_for room))).
  { unfold furniture_for.
    destruct (Room.type room); cbn [map item Furniture.id]; distinct_ids. }
  split; exact N.
Qed.

Lemma id_of_piece_inj (k1 k2 : piece_key) :
  id_of_piece k1 = id_of_piece k2 -> k1 = k2.
Proof.
  destruct k1 as [p1 n1], k2 as [p2 n2]. unfold id_of_piece.
  cbn [fst snd]. intros H.
  destruct p1, p2; cbn [piece_prefix] in H;
    try (differ H);
    apply append_cancel, string_of_index_inj in H; congruence.
Qed.

Lemma furniture_ids_of_key (r : Room.t) (k : room_key) :
  room_tag r = key_tag k ->
  map Furniture.id (furniture_for r) = map id_of_piece (pieces_of_key k).
Proof.
  destruct r as [i n t p d f], k as [t' m].
  unfold room_tag, key_tag, furniture_for, pieces_of_key.
  cbn [Room.type Room.id Room.dimensions fst snd].
  intros E. injection E as -> ->.
  destruct t'; reflexivity.
Qed.

Lemma furniture_ids_of_keys (rooms : list Room.t) (keys : list room_key) :
  map room_tag rooms = map key_tag keys ->
  furniture_ids (addFurniture rooms city)
  = map id_of_piece (flat_map pieces_of_key keys).
Proof.
  unfold furniture_ids, addFurniture.
  revert keys. induction rooms as [ | r rooms IH ]; intros [ | k keys ] E;
    try discriminate E; [ reflexivity | ].
  cbn [map flat_map] in *. injection E as Et Ei E.
  assert (Er : room_tag r = key_tag k)
    by (unfold room_tag, key_tag; now rewrite Et, Ei).
  rewrite map_app, <- (IH keys E). cbn [furnish Room.furniture].
  now rewrite (furniture_ids_of_key r k Er).
Qed.

Lemma NoDup_flat_map {A B : Type} (f : A -> list B) (l : list A) :
  NoDup l ->
  (forall x, In x l -> NoDup (f x)) ->
  (forall x y z, In x l -> In y l -> In z (f x) -> In z (f y) -> x = y) ->
  NoDup (flat_map f l).
Proof.
  induction 1 as [ | a l Ha Hl IH ]; intros Hf Hd; cbn [flat_map].
  - constructor.
  - apply NoDup_app.
    + apply Hf. now left.
    + apply IH.
      * intros x Hx. apply Hf. now right.
      * intros x y z Hx Hy. apply Hd; now right.
    + intros z Hz Hin. apply in_flat_map in Hin.
      destruct Hin as (y & Hy & Hzy).
      assert (a = y) by (apply (Hd a y z); auto using in_eq, in_cons).
      subst y. exact (Ha Hy).
Qed.

Lemma piece_room (k : room_key) (z : piece_key) :
  In z (pieces_of_key k) ->
  room_of_piece (fst z) = fst k /\ snd z = piece_number k.
Proof.
  unfold pieces_of_key. rewrite in_map_iff. intros (p & <- & Hp).
  cbn [fst snd]. split; [ | reflexivity ].
  destruct (fst k); cbn [pieces_of In] in Hp;
    repeat (destruct Hp as [ <- | Hp ]; [ reflexivity | ]); destruct Hp.
Qed.

Lemma pieces_of_key_NoDup (k : room_key) : NoDup (pieces_of_key k).
Proof.
  unfold pieces_of_key. apply NoDup_map_NoDup_ForallPairs.
  - intros p q _ _ E. now injection E.
  - destruct (fst k); cbn [pieces_of]; repeat constructor; cbn [In];
      intros H;
      repeat (destruct H as [ H | H ]; [ discriminate H | ]); exact H.
Qed.

Lemma generated_pieces_NoDup (formData : HouseFormData.t)
    (dimensions : Dimensions.t) :
  NoDup (flat_map pieces_of_key (room_keys formData dimensions)).
Proof.
  apply NoDup_flat_map.
  - apply room_keys_NoDup.
  - intros k _. apply pieces_of_key_NoDup.
  - intros k1 k2 z H1 H2 Z1 Z2.
    apply piece_room in Z1, Z2.
    destruct Z1 as (T1 & N1), Z2 as (T2 & N2).
    pose proof (room_keys_single _ _ _ H1) as S1.
    pose proof (room_keys_single _ _ _ H2) as S2.
    destruct k1 as [t1 n1], k2 as [t2 n2]. cbn [fst snd] in *.
    rewrite T1 in T2. clear T1. subst t2.
    unfold piece_number in N1, N2. cbn [fst snd] in N1, N2.
    destruct t1; try congruence.
    rewrite S1, S2 by auto. reflexivity.
Qed.

(** X9: in a generated house no two pieces of furniture share an identifier,
    across all rooms. *)
Theorem generated_furniture_ids_unique (formData : HouseFormData.t) :
  NoDup (furniture_ids (HouseLayout.rooms (generateHouse formData))).
Proof.
  unfold generateHouse. cbn [HouseLayout.rooms].
  set (d := calculateHouseDimensions _ _).
  change (addFurniture (generateRooms formData d)
                       (HouseFormData.locationType formData))
    with (addFurniture (generateRooms formData d) city).
  rewrite (furniture_ids_of_keys _ _ (generateRooms_tags formData d)).
  apply NoDup_map_NoDup_ForallPairs; [ | apply generated_pieces_NoDup ].
  intros k1 k2 _ _. apply id_of_piece_inj.
Qed.

End Uniqueness.

(* ================================================================== *)
(** ** How much furniture a generated house holds *)

Section FurnitureCount.

Import Plan Catalogue.

Lemma length_flat_map_const {A B : Type} (f : A -> list B) (n : nat)
    (l : list A) :
  (forall x, In x l -> List.length (f x) = n) ->
  List.length (flat_map f l) = (n * List.length l)%nat.
Proof.
  induction l as [ | a l IH ]; intros H; cbn [flat_map List.length].
  - lia.
  - rewrite length_app, (H a (or_introl eq_refl)), IH; [ lia | ].
    intros x Hx. apply H. now right.
Qed.

Lemma numbered_pieces (t : RoomType) (count : Z) :
  List.length (flat_map pieces_of_key (numbered t count))
  = (List.length (pieces_of t) * Z.to_nat count)%nat.
Proof.
  rewrite (length_flat_map_const _ (List.length (pieces_of t))).
  - unfold numbered. now rewrite length_map, length_seq.
  - intros k Hk. apply numbered_type in Hk.
    unfold pieces_of_key. now rewrite length_map, Hk.
Qed.

(** X10: with non-negative counts, a generated house holds 5 pieces in the
    living room, 5 per kitchen, 2 in the dining room if there is one, 4
    per bedroom and 4 per bathroom, and none in the hallway. *)
Theorem generated_furniture_count (formData : HouseFormData.t)
    (Hk : 0 <= HouseFormData.kitchens formData)
    (Hb : 0 <= HouseFormData.bedrooms formData)
    (Ha : 0 <= HouseFormData.bathrooms formData) :
  let dimensions :=
    calculateHouseDimensions
      (parsePlotSize (HouseFormData.plotSize formData)) formData in
  Z.of_nat
    (List.length (furniture_ids (HouseLayout.rooms (generateHouse formData))))
  = 5 + 5 * HouseFormData.kitchens formData
    + (if dining_fits formData dimensions then 2 else 0)
    + 4 * HouseFormData.bedrooms formData
    + 4 * HouseFormData.bathrooms formData.
Proof.
  intros dimensions. unfold generateHouse. cbn [HouseLayout.rooms].
  fold dimensions.
  change (addFurniture (generateRooms formData dimensions)
                       (HouseFormData.locationType formData))
    with (addFurniture (generateRooms formData dimensions) city).
  rewrite (furniture_ids_of_keys _ _ (generateRooms_tags formData dimensions)).
  rewrite length_map. unfold room_keys.
  rewrite !flat_map_app, !length_app, !numbered_pieces.
  destruct (dining_fits formData dimensions);
    cbn [flat_map pieces_of_key pieces_of fst map app List.length]; lia.
Qed.

End FurnitureCount.

(** The scenario of the specification (one kitchen, two bedrooms, one
    bathroom, no room for a dining room) holds 22 pieces of furniture. *)
Lemma generated_furniture_count_witness :
  Z.of_nat
    (List.length
       (Catalogue.furniture_ids
          (HouseLayout.rooms
             (generateHouse (HouseFormData.mk "20x30" single 2 1 1 city "")))))
  = 22.
Proof.
  refine (generated_furniture_count
            (HouseFormData.mk "20x30" single 2 1 1 city "") _ _ _);
    cbn; lia.
Defined.

(* ================================================================== *)
(** ** Numbers: what is never [NaN] *)

Section NotANumber.

Local Open Scope float_scope.

Lemma SFcompare_refl (x : spec_float) :
  x <> S754_nan -> SFcompare x x = Some Eq.
Proof.
  destruct x as [ s | s | | s m e ]; intros H; cbn.
  - reflexivity.
  - now destruct s.
  - now elim H.
  - rewrite Z.compare_refl, Pos.compare_cont_refl. now destruct s.
Qed.

Lemma SFcompare_antisym (a b : spec_float) :
  SFcompare b a = option_map CompOpp (SFcompare a b).
Proof.
  destruct a as [ sa | sa | | sa ma ea ], b as [ sb | sb | | sb mb eb ];
    cbn; try destruct sa; try destruct sb; try reflexivity.
  all: rewrite (Z.compare_antisym ea eb);
    destruct (ea ?= eb)%Z; cbn; try reflexivity;
    rewrite (Pos.compare_cont_antisym ma mb Eq); cbn;
    destruct (Pos.compare_cont Eq mb ma); reflexivity.
Qed.

Lemma SFcompare_total (a b : spec_float) :
  a <> S754_nan -> b <> S754_nan -> exists c, SFcompare a b = Some c.
Proof.
  intros Ha Hb.
  destruct a as [ sa | sa | | sa ma ea ], b as [ sb | sb | | sb mb eb ];
    try (now elim Ha); try (now elim Hb); cbn; eauto.
Qed.

Lemma is_nan_spec (f : float) :
  is_nan f = false <-> Prim2SF f <> S754_nan.
Proof.
  unfold is_nan. rewrite eqb_spec. unfold SFeqb. split.
  - intros H E. rewrite E in H. discriminate H.
  - intros H. now rewrite (SFcompare_refl _ H).
Qed.

Lemma shr_1_nonneg (mrs : shr_record) :
  (0 <= shr_m mrs)%Z -> (0 <= shr_m (shr_1 mrs))%Z.
Proof.
  destruct mrs as [m r s]. cbn [shr_m]. intros H.
  destruct m as [ | p | p ]; [ | destruct p | lia ]; cbn; lia.
Qed.

Lemma iter_shr_1_nonneg (p : positive) (mrs : shr_record) :
  (0 <= shr_m mrs)%Z -> (0 <= shr_m (iter_pos shr_1 p mrs))%Z.
Proof.
  revert mrs. induction p as [ p IH | p IH | ]; intros mrs H; cbn [iter_pos].
  - apply IH, IH, shr_1_nonneg, H.
  - apply IH, IH, H.
  - apply shr_1_nonneg, H.
Qed.

Lemma shr_fexp_nonneg (m e : Z) (l : location) :
  (0 <= m)%Z -> (0 <= shr_m (fst (shr_fexp prec emax m e l)))%Z.
Proof.
  intros H. unfold shr_fexp, shr.
  assert (H0 : (0 <= shr_m (shr_record_of_loc m l))%Z)
    by (destruct l as [ | [ | | ] ]; exact H).
  destruct (fexp prec emax (Zdigits2 m + e) - e)%Z; cbn [fst];
    [ exact H0 | apply iter_shr_1_nonneg, H0 | exact H0 ].
Qed.

Lemma round_nearest_even_nonneg (m : Z) (l : location) :
  (0 <= m)%Z -> (0 <= round_nearest_even m l)%Z.
Proof.
  intros H. unfold round_nearest_even.
  destruct l as [ | [ | | ] ]; try destruct (Z.even m); lia.
Qed.

(** Rounding a non-negative mantissa never gives [NaN]. *)
Lemma binary_round_aux_not_nan (s : bool) (m e : Z) (l : location) :
  (0 <= m)%Z -> binary_round_aux prec emax s m e l <> S754_nan.
Proof.
  intros H. unfold binary_round_aux.
  pose proof (shr_fexp_nonneg m e l H) as H1.
  destruct (shr_fexp prec emax m e l) as [mrs' e']. cbn [fst] in H1.
  pose proof (shr_fexp_nonneg _ e' loc_Exact
                (round_nearest_even_nonneg _ (loc_of_shr_record mrs') H1))
    as H2.
  destruct (shr_fexp prec emax _ e' loc_Exact) as [mrs'' e''].
  cbn [fst] in H2.
  destruct (shr_m mrs'') as [ | p | p ]; [ discriminate | | lia ].
  destruct (e'' <=? emax - prec)%Z; discriminate.
Qed.

(** A number times a finite non-zero constant is a number. *)
Lemma mul_finite_not_nan (w c : float) (s : bool) (m : positive) (e : Z) :
  Prim2SF c = S754_finite s m e ->
  is_nan w = false -> is_nan (w * c) = false.
Proof.
  intros Hc Hw. apply is_nan_spec. apply is_nan_spec in Hw.
  rewrite mul_spec, Hc. unfold SF64mul, SFmul.
  destruct (Prim2SF w) as [ sw | sw | | sw mw ew ];
    try discriminate; [ now elim Hw | ].
  apply binary_round_aux_not_nan. lia.
Qed.

Lemma leb_of_compare (a b : float) :
  (a <=? b) = match SFcompare (Prim2SF a) (Prim2SF b) with
              | Some (Lt | Eq) => true
              | _ => false
              end.
Proof. rewrite leb_spec. reflexivity. Qed.

(** [Math.min] of two numbers is a number not above the second. *)
Lemma Math_min_number (a b : float) :
  is_nan a = false -> is_nan b = false ->
  is_nan (JS.Math_min a b) = false /\ (JS.Math_min a b <=? b) = true.
Proof.
  intros Ha Hb. unfold JS.Math_min. rewrite Ha, Hb. cbn [orb].
  assert (Rb : (b <=? b) = true).
  { rewrite leb_of_compare, SFcompare_refl; [ reflexivity | ].
    now apply is_nan_spec. }
  destruct (a <? b) eqn:Hab.
  - split; [ exact Ha | ].
    rewrite ltb_spec in Hab. unfold SFltb in Hab.
    rewrite leb_of_compare.
    destruct (SFcompare (Prim2SF a) (Prim2SF b)) as [ [ | | ] | ];
      try discriminate Hab; reflexivity.
  - destruct (b <? a) eqn:Hba; [ split; assumption | ].
    assert (Eab : (a <=? b) = true).
    { rewrite ltb_spec in Hab, Hba. unfold SFltb in Hab, Hba.
      rewrite leb_of_compare.
      rewrite (SFcompare_antisym (Prim2SF a) (Prim2SF b)) in Hba.
      apply is_nan_spec in Ha, Hb.
      destruct (SFcompare_total _ _ Ha Hb) as (c & Ec).
      rewrite Ec in Hab, Hba |- *. cbn [option_map] in Hba.
      destruct c; try reflexivity; discriminate. }
    destruct (get_sign a); split; assumption.
Qed.

Lemma or_default_number (v : option float) (d : float) :
  JS.truthy d = true -> JS.truthy (JS.or_default v d) = true.
Proof.
  intros Hd. unfold JS.or_default.
  destruct v as [ f | ]; [ | exact Hd ].
  destruct (JS.truthy f) eqn:Hf; assumption.
Qed.

Lemma truthy_number (f : float) : JS.truthy f = true -> is_nan f = false.
Proof.
  unfold JS.truthy. destruct (is_nan f); [ discriminate | reflexivity ].
Qed.

Lemma parsePlotSize_not_nan (raw : string) :
  is_nan (PlotSize.width (parsePlotSize raw)) = false
  /\ is_nan (PlotSize.length (parsePlotSize raw)) = false.
Proof.
  unfold parsePlotSize.
  destruct (JS.includes (JS.remove_spaces (JS.toLowerCase raw)) "x").
  - cbn [PlotSize.width PlotSize.length].
    split; apply truthy_number, or_default_number; reflexivity.
  - destruct (is_nan (JS.parseFloat _)) eqn:E;
      cbn [negb PlotSize.width PlotSize.length];
      split; try assumption; reflexivity.
Qed.

(** X11: [parsePlotSize] never returns [NaN], whatever the text; and when the
    text holds an "x", neither the width nor the length is zero. *)
Theorem parsePlotSize_numbers (raw : string) :
  is_nan (PlotSize.width (parsePlotSize raw)) = false
  /\ is_nan (PlotSize.length (parsePlotSize raw)) = false
  /\ (JS.includes (JS.remove_spaces (JS.toLowerCase raw)) "x" = true ->
      JS.truthy (PlotSize.width (parsePlotSize raw)) = true
      /\ JS.truthy (PlotSize.length (parsePlotSize raw)) = true).
Proof.
  unfold parsePlotSize.
  destruct (JS.includes (JS.remove_spaces (JS.toLowerCase raw)) "x").
  - cbn [PlotSize.width PlotSize.length].
    assert (W : forall v, JS.truthy (JS.or_default v 20) = true)
      by (intros v; now apply or_default_number).
    assert (L : forall v, JS.truthy (JS.or_default v 30) = true)
      by (intros v; now apply or_default_number).
    repeat split; auto using truthy_number.
  - destruct (is_nan (JS.parseFloat _)) eqn:E;
      cbn [negb PlotSize.width PlotSize.length];
      repeat split; try assumption; try reflexivity; discriminate.
Qed.

(** X12: the footprint of every generated house is a number of at most 25 by
    35 metres, whatever the form says. *)
Theorem generateHouse_footprint (formData : HouseFormData.t) :
  let layout := generateHouse formData in
  is_nan (HouseLayout.width layout) = false
  /\ (HouseLayout.width layout <=? 25) = true
  /\ is_nan (HouseLayout.length layout) = false
  /\ (HouseLayout.length layout <=? 35) = true.
Proof.
  intros layout. unfold layout, generateHouse, calculateHouseDimensions.
  cbn [HouseLayout.width HouseLayout.length Dimensions.width
       Dimensions.length].
  destruct (parsePlotSize_not_nan (HouseFormData.plotSize formData))
    as (Hw & Hl).
  assert (C : exists s m e, Prim2SF 0.8 = S754_finite s m e)
    by (vm_compute; eauto).
  destruct C as (s & m & e & C).
  pose proof (mul_finite_not_nan _ _ _ _ _ C Hw) as Hw'.
  pose proof (mul_finite_not_nan _ _ _ _ _ C Hl) as Hl'.
  destruct (Math_min_number _ 25 Hw' eq_refl) as (A & B).
  destruct (Math_min_number _ 35 Hl' eq_refl) as (A' & B').
  repeat split; assumption.
Qed.

End NotANumber.

(* ================================================================== *)
(** ** The smaller of two numbers, and the house dimensions *)

Section Minimum.

Local Open Scope float_scope.

Lemma is_nan_true (f : float) : is_nan f = true <-> Prim2SF f = S754_nan.
Proof.
  split.
  - intros H. destruct (Prim2SF f) eqn:E; try reflexivity;
      assert (N : is_nan f = false)
        by (apply is_nan_spec; rewrite E; discriminate);
      congruence.
  - intros H. destruct (is_nan f) eqn:E; [ reflexivity | ].
    apply is_nan_spec in E. contradiction.
Qed.

(** Only numbers are ordered. *)
Lemma ltb_numbers (a b : float) :
  (a <? b) = true -> is_nan a = false /\ is_nan b = false.
Proof.
  rewrite ltb_spec. unfold SFltb. intros H.
  split; apply is_nan_spec; intros E; rewrite E in H;
    [ | destruct (Prim2SF a) ]; discriminate H.
Qed.

(** [Math.min] is [NaN] as soon as an argument is. *)
Lemma Math_min_nan (a b : float) :
  is_nan a = true \/ is_nan b = true -> is_nan (JS.Math_min a b) = true.
Proof.
  unfold JS.Math_min. intros [ H | H ]; rewrite H;
    [ | rewrite orb_true_r ]; reflexivity.
Qed.

(** [Math.min] of two numbers is one of them, and is above neither. *)
Lemma Math_min_least (a b : float) :
  is_nan a = false -> is_nan b = false ->
  (JS.Math_min a b = a \/ JS.Math_min a b = b)
  /\ (JS.Math_min a b <=? a) = true
  /\ (JS.Math_min a b <=? b) = true.
Proof.
  intros Ha Hb. unfold JS.Math_min. rewrite Ha, Hb. cbn [orb].
  pose proof Ha as Sa. pose proof Hb as Sb.
  apply is_nan_spec in Sa, Sb.
  assert (Ra : (a <=? a) = true)
    by (rewrite leb_of_compare, SFcompare_refl; trivial).
  assert (Rb : (b <=? b) = true)
    by (rewrite leb_of_compare, SFcompare_refl; trivial).
  destruct (a <? b) eqn:Hab.
  - split; [ now left | ]. split; [ exact Ra | ].
    rewrite ltb_spec in Hab. unfold SFltb in Hab. rewrite leb_of_compare.
    destruct (SFcompare (Prim2SF a) (Prim2SF b)) as [ [ | | ] | ];
      try discriminate Hab; reflexivity.
  - destruct (b <? a) eqn:Hba.
    + split; [ now right | ]. split; [ | exact Rb ].
      rewrite ltb_spec in Hba. unfold SFltb in Hba. rewrite leb_of_compare.
      destruct (SFcompare (Prim2SF b) (Prim2SF a)) as [ [ | | ] | ];
        try discriminate Hba; reflexivity.
    + assert (E : SFcompare (Prim2SF a) (Prim2SF b) = Some Eq).
      { rewrite ltb_spec in Hab, Hba. unfold SFltb in Hab, Hba.
        rewrite (SFcompare_antisym (Prim2SF a) (Prim2SF b)) in Hba.
        destruct (SFcompare_total _ _ Sa Sb) as (c & Ec).
        rewrite Ec in Hab, Hba |- *. cbn [option_map] in Hba.
        destruct c; try reflexivity; discriminate. }
      assert (Eab : (a <=? b) = true) by (now rewrite leb_of_compare, E).
      assert (Eba : (b <=? a) = true)
        by (now rewrite leb_of_compare, SFcompare_antisym, E).
      destruct (get_sign a); (split; [ auto | split; assumption ]).
Qed.

(** [Math.min] picks the argument that is strictly below the other. *)
Lemma Math_min_strict (a b : float) :
  ((a <? b) = true -> JS.Math_min a b = a)
  /\ ((b <? a) = true -> JS.Math_min a b = b).
Proof.
  unfold JS.Math_min. split; intros H;
    destruct (ltb_numbers _ _ H) as (N1 & N2); rewrite N1, N2; cbn [orb].
  - now rewrite H.
  - now rewrite (ltb_asym _ _ H), H.
Qed.

Lemma mul_nan (w c : float) : is_nan w = true -> is_nan (w * c) = true.
Proof.
  intros H. apply is_nan_true. apply is_nan_true in H.
  rewrite mul_spec, H. reflexivity.
Qed.

(** C2: the width is the smaller of 0.8 times the plot width and 25, and
    the length the smaller of 0.8 times the plot length and 35: each is
    one of the two, is above neither (so the width never exceeds 25 nor
    the length 35), is the scaled plot side when that is below the cap and
    the cap when the scaled side is above it, and is [NaN] only for a plot
    side that is [NaN]; the height is the per-floor unit, 3, for a
    single-story house and twice it, 6, for a double-story one. *)
Theorem calculateHouseDimensions_capped
    (plotSize : PlotSize.t) (formData : HouseFormData.t) :
  let d := calculateHouseDimensions plotSize formData in
  let w := PlotSize.width plotSize * 0.8 in
  let l := PlotSize.length plotSize * 0.8 in
  Dimensions.width d = JS.Math_min w 25
  /\ Dimensions.length d = JS.Math_min l 35
  /\ (25 <? Dimensions.width d) = false
  /\ (35 <? Dimensions.length d) = false
  /\ Dimensions.height d
     = match HouseFormData.houseType formData with
       | single => ROOM_HEIGHT
       | double => ROOM_HEIGHT * 2
       end
  /\ Dimensions.height d
     = match HouseFormData.houseType formData with
       | single => 3
       | double => 6
       end
  /\ (is_nan (PlotSize.width plotSize) = false ->
      (Dimensions.width d = w \/ Dimensions.width d = 25)
      /\ (Dimensions.width d <=? w) = true
      /\ (Dimensions.width d <=? 25) = true)
  /\ (is_nan (PlotSize.length plotSize) = false ->
      (Dimensions.length d = l \/ Dimensions.length d = 35)
      /\ (Dimensions.length d <=? l) = true
      /\ (Dimensions.length d <=? 35) = true)
  /\ ((w <? 25) = true -> Dimensions.width d = w)
  /\ ((25 <? w) = true -> Dimensions.width d = 25)
  /\ ((l <? 35) = true -> Dimensions.length d = l)
  /\ ((35 <? l) = true -> Dimensions.length d = 35)
  /\ (is_nan (PlotSize.width plotSize) = true ->
      is_nan (Dimensions.width d) = true)
  /\ (is_nan (PlotSize.length plotSize) = true ->
      is_nan (Dimensions.length d) = true).
Proof.
  intros d w l. unfold d, calculateHouseDimensions.
  cbn [Dimensions.width Dimensions.length Dimensions.height].
  fold w l.
  assert (C : exists s m e, Prim2SF 0.8 = S754_finite s m e)
    by (vm_compute; eauto).
  destruct C as (s & m & e & C).
  split; [ reflexivity | ]. split; [ reflexivity | ].
  split; [ apply Math_min_bound | ]. split; [ apply Math_min_bound | ].
  split; [ reflexivity | ].
  split; [ now destruct (HouseFormData.houseType formData) | ].
  split.
  { intros H. apply Math_min_least; [ | reflexivity ].
    exact (mul_finite_not_nan _ _ _ _ _ C H). }
  split.
  { intros H. apply Math_min_least; [ | reflexivity ].
    exact (mul_finite_not_nan _ _ _ _ _ C H). }
  split; [ apply Math_min_strict | ]. split; [ apply Math_min_strict | ].
  split; [ apply Math_min_strict | ]. split; [ apply Math_min_strict | ].
  split; intros H; apply Math_min_nan; left; apply mul_nan, H.
Qed.

End Minimum.

(** C2 on a plot of 4 by 6, below the caps, and on one of 100 by 100,
    above them. *)
Lemma calculateHouseDimensions_capped_witness :
  Dimensions.width
    (calculateHouseDimensions (PlotSize.mk 4 6)
       (HouseFormData.mk "4x6" single 2 1 1 city ""))
  = (4 * 0.8)%float
  /\ Dimensions.length
       (calculateHouseDimensions (PlotSize.mk 4 6)
          (HouseFormData.mk "4x6" single 2 1 1 city ""))
     = (6 * 0.8)%float
  /\ Dimensions.width
       (calculateHouseDimensions (PlotSize.mk 100 100)
          (HouseFormData.mk "100" double 2 1 1 city ""))
     = 25%float
  /\ Dimensions.length
       (calculateHouseDimensions (PlotSize.mk 100 100)
          (HouseFormData.mk "100" double 2 1 1 city ""))
     = 35%float.
Proof.
  destruct (calculateHouseDimensions_capped (PlotSize.mk 4 6)
              (HouseFormData.mk "4x6" single 2 1 1 city ""))
    as (_ & _ & _ & _ & _ & _ & _ & _ & W & _ & L & _).
  destruct (calculateHouseDimensions_capped (PlotSize.mk 100 100)
              (HouseFormData.mk "100" double 2 1 1 city ""))
    as (_ & _ & _ & _ & _ & _ & _ & _ & _ & W' & _ & L' & _).
  split; [ exact (W eq_refl) | ]. split; [ exact (L eq_refl) | ].
  split; [ exact (W' eq_refl) | exact (L' eq_refl) ].
Defined.

(* ================================================================== *)
(** ** Reading whole numbers *)

Section WholeNumbers.

Import PlotSpec.
Local Open Scope string_scope.

(** A decimal digit is not white space, is its own lower case, and is
    none of the characters that the parser treats specially. *)
Lemma digit_char (c : ascii) (v : Z) :
  JS.digit_of c = Some v ->
  JS.is_space c = false /\ JS.lower_char c = c
  /\ Ascii.eqb c "x" = false /\ Ascii.eqb c "." = false
  /\ Ascii.eqb c "e" = false /\ Ascii.eqb c "E" = false.
Proof.
  destruct c as [[] [] [] [] [] [] [] []]; intros H; vm_compute in H;
    try discriminate H; repeat split.
Qed.

Lemma digit_head (c : ascii) (v : Z) (r : string) :
  JS.digit_of c = Some v ->
  JS.numeric_prefix (String c r) = JS.unsigned_literal false (String c r)
  /\ prefix "Infinity" (String c r) = false.
Proof.
  destruct c as [[] [] [] [] [] [] [] []]; intros H; vm_compute in H;
    try discriminate H; split; reflexivity.
Qed.

(** The digits of a text of digits are all taken. *)
Lemma take_all_digits (s : string) (acc : Z) (len : nat) :
  all_digits s = true ->
  exists v, JS.take_digits s acc len = (v, (len + String.length s)%nat, "").
Proof.
  revert acc len. induction s as [ | c r IH ]; intros acc len H.
  - exists acc. cbn. now rewrite Nat.add_0_r.
  - cbn [all_digits] in H. cbn [JS.take_digits String.length].
    destruct (JS.digit_of c) as [ d | ]; [ | discriminate H ].
    destruct (IH (10 * acc + d) (S len) H) as (v & E).
    exists v. rewrite E. f_equal. f_equal. lia.
Qed.

Lemma decimal_to_float_whole (z : Z) :
  JS.decimal_to_float false z 0 = JS.ofZ z.
Proof.
  unfold JS.decimal_to_float, JS.ofZ.
  destruct z; [ reflexivity | | ]; cbn [Z.leb Z.compare Z.pow];
    now rewrite Z.mul_1_r.
Qed.

(** [parseFloat] reads a non-empty text of digits as the whole number it
    denotes, rounded to the nearest binary64. *)
Lemma parseFloat_digits (s : string) :
  nonempty s = true -> all_digits s = true ->
  JS.parseFloat s = JS.ofZ (Form.digits_value s).
Proof.
  intros Hn Hd. destruct s as [ | c r ]; [ discriminate Hn | ].
  pose proof Hd as Hc. cbn [all_digits] in Hc.
  destruct (JS.digit_of c) as [ d | ] eqn:Ec; [ | discriminate Hc ].
  destruct (digit_head c d r Ec) as (Hp & Hi).
  unfold JS.parseFloat. rewrite Hp. unfold JS.unsigned_literal.
  rewrite Hi. unfold Form.digits_value.
  destruct (take_all_digits (String c r) 0 0 Hd) as (v & E).
  rewrite E. cbn [fst Nat.add String.length JS.take_exponent].
  apply decimal_to_float_whole.
Qed.

Lemma all_digits_uint (d : Decimal.uint) :
  all_digits (NilEmpty.string_of_uint d) = true.
Proof. induction d; cbn; trivial. Qed.

Lemma take_digits_uint (d : Decimal.uint) (a len : nat) :
  exists len',
    JS.take_digits (NilEmpty.string_of_uint d) (Z.of_nat a) len
    = (Z.of_nat (Nat.of_uint_acc d a), len', "").
Proof.
  revert a len. induction d as [ | d IH | d IH | d IH | d IH | d IH
                                 | d IH | d IH | d IH | d IH | d IH ];
    intros a len; cbn [NilEmpty.string_of_uint Nat.of_uint_acc].
  1: { exists len. reflexivity. }
  all: cbn [JS.take_digits];
    match goal with
    | |- context [JS.digit_of ?c] =>
        let v := eval vm_compute in (JS.digit_of c) in
        change (JS.digit_of c) with v
    end;
    cbv iota beta;
    match goal with
    | |- context [JS.take_digits _ ?z (S _)] =>
        match goal with
        | |- context [Nat.of_uint_acc _ ?n] =>
            replace z with (Z.of_nat n)
              by (rewrite ?Nat.tail_mul_spec; lia)
        end
    end;
    apply IH.
Qed.

Lemma string_of_index_uint (n : nat) :
  JS.string_of_index n = NilEmpty.string_of_uint (Nat.to_uint n).
Proof.
  unfold JS.string_of_index, NilZero.string_of_uint.
  pose proof (to_uint_nonnil n) as H.
  destruct (Nat.to_uint n); [ now elim H | reflexivity .. ].
Qed.

Lemma string_of_index_digits (n : nat) :
  nonempty (JS.string_of_index n) = true
  /\ all_digits (JS.string_of_index n) = true
  /\ Form.digits_value (JS.string_of_index n) = Z.of_nat n.
Proof.
  rewrite string_of_index_uint. split; [ | split ].
  - pose proof (to_uint_nonnil n) as H.
    destruct (Nat.to_uint n); [ now elim H | reflexivity .. ].
  - apply all_digits_uint.
  - unfold Form.digits_value.
    destruct (take_digits_uint (Nat.to_uint n) 0 0) as (len' & E).
    change (Z.of_nat 0) with 0%Z in E. rewrite E. cbn [fst].
    change (Nat.of_uint_acc (Nat.to_uint n) 0) with
      (Nat.of_uint (Nat.to_uint n)).
    now rewrite DecimalNat.Unsigned.of_to.
Qed.

(** X13: printing a natural number and parsing it back gives the number:
    [parseFloat(String(n))] is [n] (as the nearest binary64). *)
Theorem parseFloat_string_of_index (n : nat) :
  JS.parseFloat (JS.string_of_index n) = JS.ofZ (Z.of_nat n).
Proof.
  destruct (string_of_index_digits n) as (Hn & Hd & Hv).
  rewrite (parseFloat_digits _ Hn Hd), Hv. reflexivity.
Qed.

End WholeNumbers.

(* ================================================================== *)
(** ** Whole numbers below [2^53] are exact *)

Section SafeIntegers.

Local Open Scope Z_scope.

Lemma digits2_size (p : positive) : digits2_pos p = Pos.size p.
Proof. induction p; cbn; congruence. Qed.

Lemma digits2_small (p : positive) :
  Zpos p < 2 ^ 53 -> Zpos (digits2_pos p) <= 53.
Proof.
  intros H. rewrite digits2_size.
  destruct (Z_le_gt_dec (Zpos (Pos.size p)) 53) as [ L | G ]; [ exact L | ].
  exfalso.
  assert (S : 2 ^ Zpos (Pos.size p) <= 2 * Zpos p).
  { pose proof (Pos.size_le p) as Hs.
    apply Pos2Z.pos_le_pos in Hs. rewrite Pos2Z.inj_pow in Hs.
    exact Hs. }
  assert (M : 2 ^ 54 <= 2 ^ Zpos (Pos.size p))
    by (apply Z.pow_le_mono_r; lia).
  change (2 ^ 54) with 18014398509481984 in M.
  change (2 ^ 53) with 9007199254740992 in H. lia.
Qed.

Lemma digits2_shift (p k : positive) :
  digits2_pos (Pos.iter xO p k) = (digits2_pos p + k)%positive.
Proof.
  induction k as [ | k IH ] using Pos.peano_ind.
  - cbn. now rewrite Pos.add_1_r.
  - rewrite Pos.iter_succ. cbn [digits2_pos].
    now rewrite IH, Pos.add_succ_r.
Qed.

(** A mantissa of 53 bits with an exponent in range is rounded to
    itself. *)
Lemma binary_round_aux_exact (s : bool) (m : positive) (e : Z) :
  Zpos (digits2_pos m) = 53 -> -1074 <= e <= 971 ->
  binary_round_aux prec emax s (Zpos m) e loc_Exact = S754_finite s m e
  /\ SpecFloat.valid_binary prec emax (S754_finite s m e) = true.
Proof.
  intros Hd He.
  assert (F : fexp prec emax (Zpos (digits2_pos m) + e) = e)
    by (rewrite Hd; unfold fexp, SpecFloat.emin, prec, emax; lia).
  split.
  - unfold binary_round_aux, shr_fexp.
    cbn [Zdigits2 shr_record_of_loc]. rewrite F, Z.sub_diag.
    cbn [shr shr_m loc_of_shr_record round_nearest_even Zdigits2
         shr_record_of_loc].
    rewrite F, Z.sub_diag. cbn [shr shr_m].
    replace (e <=? emax - prec) with true; [ reflexivity | ].
    symmetry. apply Z.leb_le. unfold emax, prec. lia.
  - cbn [valid_binary]. unfold bounded, canonical_mantissa.
    rewrite F, Z.eqb_refl. cbn [andb].
    apply Z.leb_le. unfold emax, prec. lia.
Qed.

(** A positive whole number below [2^53] is a finite positive number. *)
Lemma ofZ_small (p : positive) :
  Zpos p < 2 ^ 53 ->
  exists m e, Prim2SF (JS.ofZ (Zpos p)) = S754_finite false m e.
Proof.
  intros H. pose proof (digits2_small p H) as Hd.
  assert (Hp : 0 < Zpos (digits2_pos p)) by lia.
  unfold JS.ofZ, binary_normalize, binary_round.
  assert (F : fexp prec emax (Zpos (digits2_pos p) + 0)
              = Zpos (digits2_pos p) - 53)
    by (unfold fexp, SpecFloat.emin, prec, emax; lia).
  rewrite F. unfold shl_align.
  destruct (Zpos (digits2_pos p) - 53 - 0) as [ | k | k ] eqn:E; try lia.
  - destruct (binary_round_aux_exact false p 0) as (R & V); try lia.
    rewrite R. exists p, 0. now apply Prim2SF_SF2Prim.
  - destruct (binary_round_aux_exact false (Pos.iter xO p k)
                (Zpos (digits2_pos p) - 53)) as (R & V); try lia.
    { rewrite digits2_shift. lia. }
    rewrite R. eexists _, _. now apply Prim2SF_SF2Prim.
Qed.

Lemma ofZ_small_truthy (n : nat) :
  (0 < n)%nat -> Z.of_nat n < 2 ^ 53 -> JS.truthy (JS.ofZ (Z.of_nat n)) = true.
Proof.
  intros Hn Hb. destruct (Z.of_nat n) as [ | p | p ] eqn:E; try lia.
  destruct (ofZ_small p Hb) as (m & e & S).
  unfold JS.truthy.
  assert (N : is_nan (JS.ofZ (Zpos p)) = false)
    by (apply is_nan_spec; rewrite S; discriminate).
  rewrite N. unfold is_zero. rewrite eqb_spec, S. reflexivity.
Qed.

Lemma ofZ_small_number (n : nat) :
  Z.of_nat n < 2 ^ 53 -> is_nan (JS.ofZ (Z.of_nat n)) = false.
Proof.
  intros Hb. destruct n as [ | n ]; [ reflexivity | ].
  apply truthy_number, ofZ_small_truthy; [ lia | exact Hb ].
Qed.

End SafeIntegers.

(* ================================================================== *)
(** ** [parseFloat] gives [NaN] only when it reads nothing *)

Section ParseFloatNumbers.

Local Open Scope Z_scope.

Lemma binary_normalize_not_nan (m e : Z) (s : bool) :
  binary_normalize prec emax m e s <> S754_nan.
Proof.
  unfold binary_normalize, binary_round.
  destruct m as [ | p | p ]; [ discriminate | | ];
    destruct (shl_align _ _ _) as [mz ez];
    apply binary_round_aux_not_nan; lia.
Qed.

Lemma SFldexp_not_nan (x : spec_float) (e : Z) :
  x <> S754_nan -> SFldexp prec emax x e <> S754_nan.
Proof.
  intros H. destruct x as [ s | s | | s m ex ]; cbn [SFldexp]; trivial.
  unfold binary_round. destruct (shl_align _ _ _) as [mz ez].
  apply binary_round_aux_not_nan. lia.
Qed.

(** A specified number other than [NaN] is given to the machine as a
    number. *)
Lemma SF2Prim_number (x : spec_float) :
  x <> S754_nan -> is_nan (SF2Prim x) = false.
Proof.
  intros H. destruct x as [ [] | [] | | s m e ]; try reflexivity;
    [ now elim H | ].
  unfold SF2Prim.
  assert (L : Prim2SF (FloatOps.Z.ldexp (of_uint63 (Uint63Axioms.of_Z (Zpos m))) e)
              <> S754_nan).
  { unfold FloatOps.Z.ldexp. rewrite ldshiftexp_spec, of_uint63_spec.
    apply SFldexp_not_nan, binary_normalize_not_nan. }
  apply is_nan_spec. destruct s; [ | exact L ].
  rewrite opp_spec. destruct (Prim2SF _); try discriminate. now elim L.
Qed.

Lemma decimal_to_float_number (neg : bool) (m e : Z) :
  0 <= m -> is_nan (JS.decimal_to_float neg m e) = false.
Proof.
  intros Hm. unfold JS.decimal_to_float.
  destruct m as [ | p | p ]; [ now destruct neg | | lia ].
  destruct (0 <=? e) eqn:He.
  - apply SF2Prim_number, binary_normalize_not_nan.
  - apply Z.leb_gt in He. unfold SFdiv_core_binary.
    set (m' := match _ with Z0 => Zpos p | Zpos _ => _ | Zneg _ => 0 end).
    assert (H' : 0 <= m').
    { unfold m'. destruct (_ - _ - _); try lia. apply Z.shiftl_nonneg. lia. }
    assert (P : 0 < 10 ^ (- e)) by (apply Z.pow_pos_nonneg; lia).
    pose proof (Z.div_pos m' (10 ^ (- e)) H' P) as Q. unfold Z.div in Q.
    destruct (Z.div_eucl m' (10 ^ (- e))) as [q r]. cbn [fst] in Q.
    apply SF2Prim_number, binary_round_aux_not_nan, Q.
Qed.

End ParseFloatNumbers.

Section ParseFloatReads.

Local Open Scope Z_scope.

Lemma digit_of_nonneg (c : ascii) (d : Z) : JS.digit_of c = Some d -> 0 <= d.
Proof.
  unfold JS.digit_of. destruct (_ && _)%bool; [ | discriminate ].
  intros E. injection E as <-. lia.
Qed.

Lemma take_digits_nonneg (s : string) (acc : Z) (len : nat) :
  0 <= acc -> 0 <= fst (fst (JS.take_digits s acc len)).
Proof.
  revert acc len. induction s as [ | c r IH ]; intros acc len H;
    cbn [JS.take_digits]; [ exact H | ].
  destruct (JS.digit_of c) as [ d | ] eqn:E; [ | exact H ].
  apply IH. pose proof (digit_of_nonneg _ _ E). lia.
Qed.

Lemma unsigned_literal_number (neg : bool) (s : string) (v : float) :
  JS.unsigned_literal neg s = Some v -> is_nan v = false.
Proof.
  unfold JS.unsigned_literal.
  destruct (prefix "Infinity" s).
  { intros E. injection E as <-. now destruct neg. }
  pose proof (take_digits_nonneg s 0 0 (Z.le_refl 0)) as H0.
  destruct (JS.take_digits s 0 0) as [[ip ilen] r]. cbn [fst] in H0.
  assert (F : forall r' acc,
             0 <= acc ->
             forall w,
               (let '(m, flen, r'') := JS.take_digits r' acc 0 in
                Some (JS.decimal_to_float neg m
                        (JS.take_exponent r'' - Z.of_nat flen))) = Some w ->
               is_nan w = false).
  { intros r' acc Ha w.
    pose proof (take_digits_nonneg r' acc 0 Ha) as H1.
    destruct (JS.take_digits r' acc 0) as [[m flen] r'']. cbn [fst] in H1.
    intros E. injection E as <-. now apply decimal_to_float_number. }
  destruct ilen as [ | n ]; destruct r as [ | c r' ]; try discriminate.
  - destruct (Ascii.eqb c ".") eqn:Ec.
    + apply Ascii.eqb_eq in Ec. subst c.
      pose proof (take_digits_nonneg r' 0 0 (Z.le_refl 0)) as H1.
      destruct (JS.take_digits r' 0 0) as [[m flen] r'']. cbn [fst] in H1.
      destruct flen; [ discriminate | ].
      intros E. injection E as <-. now apply decimal_to_float_number.
    + intros E. exfalso. revert E.
      destruct c as [[] [] [] [] [] [] [] []]; try discriminate Ec;
        discriminate.
  - intros E. injection E as <-. now apply decimal_to_float_number.
  - destruct (Ascii.eqb c ".") eqn:Ec.
    + apply Ascii.eqb_eq in Ec. subst c. apply F. exact H0.
    + intros E.
      assert (E' : Some (JS.decimal_to_float neg ip
                           (JS.take_exponent (String c r'))) = Some v).
      { revert E.
        destruct c as [[] [] [] [] [] [] [] []]; try discriminate Ec;
          exact (fun e => e). }
      injection E' as <-. now apply decimal_to_float_number.
Qed.

(** X14: [parseFloat] answers [NaN] exactly when no number starts the text
    (after leading white space): whatever it reads, digits, a fraction or
    an exponent however large, is a number or an infinity. *)
Theorem parseFloat_nan_iff (s : string) :
  is_nan (JS.parseFloat s) = true <-> JS.numeric_prefix s = None.
Proof.
  unfold JS.parseFloat. split.
  - destruct (JS.numeric_prefix s) as [ v | ] eqn:E; [ | reflexivity ].
    intros N. exfalso.
    assert (V : is_nan v = false).
    { unfold JS.numeric_prefix in E.
      destruct (JS.trim_start s) as [ | c r ];
        [ exact (unsigned_literal_number _ _ _ E) | ].
      revert E.
      destruct c as [[] [] [] [] [] [] [] []];
        apply unsigned_literal_number. }
    rewrite V in N. discriminate N.
  - intros ->. reflexivity.
Qed.

End ParseFloatReads.

(* ================================================================== *)
(** ** Plot sizes written in digits *)

Section DigitPlots.

Import PlotSpec.
Local Open Scope string_scope.

Lemma normal_digits (s : string) :
  all_digits s = true -> JS.remove_spaces (JS.toLowerCase s) = s.
Proof.
  induction s as [ | c r IH ]; intros H; [ reflexivity | ].
  cbn [all_digits] in H. cbn [JS.toLowerCase JS.remove_spaces].
  destruct (JS.digit_of c) as [ d | ] eqn:E; [ | discriminate H ].
  destruct (digit_char c d E) as (Hs & Hl & _).
  now rewrite Hl, Hs, IH.
Qed.

Lemma normal_digits_x (a b : string) :
  all_digits a = true -> all_digits b = true ->
  JS.remove_spaces (JS.toLowerCase (a ++ String "x" b)) = a ++ String "x" b.
Proof.
  intros Ha Hb. induction a as [ | c r IH ].
  - cbn. now rewrite normal_digits.
  - cbn [all_digits] in Ha.
    cbn [String.append JS.toLowerCase JS.remove_spaces].
    destruct (JS.digit_of c) as [ d | ] eqn:E; [ | discriminate Ha ].
    destruct (digit_char c d E) as (Hs & Hl & _).
    now rewrite Hl, Hs, IH.
Qed.

Lemma digits_without_x (s : string) :
  all_digits s = true -> JS.includes s "x" = false /\ JS.split s "x" = [s].
Proof.
  induction s as [ | c r IH ]; intros H; [ split; reflexivity | ].
  cbn [all_digits] in H. cbn [JS.includes JS.split].
  destruct (JS.digit_of c) as [ d | ] eqn:E; [ | discriminate H ].
  destruct (digit_char c d E) as (_ & _ & Hx & _).
  destruct (IH H) as (Hi & Hs). now rewrite Hx, Hi, Hs.
Qed.

Lemma digits_with_x (a b : string) :
  all_digits a = true -> all_digits b = true ->
  JS.includes (a ++ String "x" b) "x" = true
  /\ JS.split (a ++ String "x" b) "x" = [a; b].
Proof.
  intros Ha Hb. induction a as [ | c r IH ].
  - cbn. destruct (digits_without_x b Hb) as (_ & ->). split; reflexivity.
  - cbn [all_digits] in Ha. cbn [String.append JS.includes JS.split].
    destruct (JS.digit_of c) as [ d | ] eqn:E; [ | discriminate Ha ].
    destruct (digit_char c d E) as (_ & _ & Hx & _).
    destruct (IH Ha) as (Hi & Hs). rewrite Hx, Hi, Hs.
    split; [ apply orb_true_r | reflexivity ].
Qed.

(** A single run of digits is read as a square plot of that side. *)
Lemma parsePlotSize_digits (s : string) :
  nonempty s = true -> all_digits s = true ->
  parsePlotSize s
  = PlotSize.mk (JS.ofZ (Form.digits_value s)) (JS.ofZ (Form.digits_value s)).
Proof.
  intros Hn Hd. unfold parsePlotSize.
  rewrite (normal_digits s Hd).
  destruct (digits_without_x s Hd) as (-> & _).
  rewrite (parseFloat_digits s Hn Hd).
  unfold JS.ofZ. rewrite SF2Prim_number; [ reflexivity | ].
  apply binary_normalize_not_nan.
Qed.

(** Two runs of digits around an "x" are read as width and length, each
    replaced by its default when it is zero. *)
Lemma parsePlotSize_digits_x (a b : string) :
  nonempty a = true -> all_digits a = true ->
  nonempty b = true -> all_digits b = true ->
  parsePlotSize (a ++ "x" ++ b)
  = PlotSize.mk
      (JS.or_default (Some (JS.ofZ (Form.digits_value a))) 20%float)
      (JS.or_default (Some (JS.ofZ (Form.digits_value b))) 30%float).
Proof.
  intros Hna Hda Hnb Hdb. unfold parsePlotSize.
  change (a ++ "x" ++ b) with (a ++ String "x" b).
  rewrite (normal_digits_x a b Hda Hdb).
  destruct (digits_with_x a b Hda Hdb) as (-> & ->).
  cbn [map nth_error].
  now rewrite (parseFloat_digits a Hna Hda), (parseFloat_digits b Hnb Hdb).
Qed.

(** X15: what is typed is what is built on: for whole numbers [w] and [l]
    between 1 and [2^53 - 1], the text "w" followed by "x" and "l" is
    parsed to exactly [w] by [l], and the text "w" alone to the square
    [w] by [w]. *)
Theorem parsePlotSize_round_trip (w l : nat)
    (Hw : (0 < w)%nat) (Hw' : (Z.of_nat w < 2 ^ 53)%Z)
    (Hl : (0 < l)%nat) (Hl' : (Z.of_nat l < 2 ^ 53)%Z) :
  parsePlotSize (JS.string_of_index w ++ "x" ++ JS.string_of_index l)
  = PlotSize.mk (JS.ofZ (Z.of_nat w)) (JS.ofZ (Z.of_nat l))
  /\ parsePlotSize (JS.string_of_index w)
     = PlotSize.mk (JS.ofZ (Z.of_nat w)) (JS.ofZ (Z.of_nat w)).
Proof.
  destruct (string_of_index_digits w) as (Nw & Dw & Vw).
  destruct (string_of_index_digits l) as (Nl & Dl & Vl).
  split.
  - rewrite (parsePlotSize_digits_x _ _ Nw Dw Nl Dl), Vw, Vl.
    unfold JS.or_default.
    now rewrite (ofZ_small_truthy w Hw Hw'), (ofZ_small_truthy l Hl Hl').
  - now rewrite (parsePlotSize_digits _ Nw Dw), Vw.
Qed.

End DigitPlots.

(** A plot of 12 by 40, typed as "12x40". *)
Lemma parsePlotSize_round_trip_witness :
  parsePlotSize "12x40" = PlotSize.mk 12%float 40%float.
Proof.
  refine (proj1 (parsePlotSize_round_trip 12 40 _ _ _ _));
    cbn; try lia; reflexivity.
Defined.

(* ================================================================== *)
(** ** The form's validation, and what the generator makes of it *)

Section Validation.

Import PlotSpec Plan Catalogue.
Local Open Scope string_scope.


Lemma append_empty_r (s : string) : s ++ "" = s.
Proof. induction s as [ | c r IH ]; cbn; congruence. Qed.



Lemma validateForm_inv (formData : HouseFormData.t) :
  Form.validateForm formData = true ->
  Form.truthy_string (Form.trim (HouseFormData.plotSize formData)) = true
  /\ Form.matches_plot_pattern
       (JS.remove_spaces (JS.toLowerCase (HouseFormData.plotSize formData)))
     = true
  /\ (1 <= HouseFormData.bedrooms formData <= 10)%Z
  /\ (1 <= HouseFormData.bathrooms formData <= 5)%Z
  /\ (1 <= HouseFormData.kitchens formData <= 3)%Z.
Proof.
  unfold Form.validateForm, Form.no_errors, Form.form_errors.
  cbn [FormErrors.plotSize FormErrors.houseType FormErrors.bedrooms
       FormErrors.bathrooms FormErrors.kitchens FormErrors.locationType].
  destruct (Form.truthy_string (Form.trim _)); cbn [negb];
    [ | discriminate ].
  destruct (Form.matches_plot_pattern _); cbn [negb]; [ | discriminate ].
  destruct (HouseFormData.bedrooms formData <? 1)%Z eqn:B1;
    destruct (10 <? HouseFormData.bedrooms formData)%Z eqn:B2;
    destruct (HouseFormData.bathrooms formData <? 1)%Z eqn:A1;
    destruct (5 <? HouseFormData.bathrooms formData)%Z eqn:A2;
    destruct (HouseFormData.kitchens formData <? 1)%Z eqn:K1;
    destruct (3 <? HouseFormData.kitchens formData)%Z eqn:K2;
    cbn; try discriminate; intros _.
  apply Z.ltb_ge in B1, B2, A1, A2, K1, K2. repeat split; lia.
Qed.

Lemma trim_truthy (s : string) :
  Form.truthy_string (Form.trim s) = true -> Form.truthy_string s = true.
Proof. destruct s; [ discriminate | reflexivity ]. Qed.

Lemma parseInt_whole_small (n : Z) :
  (-10 <= n <= 10)%Z -> Route.parseInt_whole n = Some n.
Proof.
  intros H. unfold Route.parseInt_whole.
  replace (Z.abs n <? 10 ^ 21)%Z with true; [ reflexivity | ].
  symmetry. apply Z.ltb_lt.
  change (10 ^ 21)%Z with 1000000000000000000000%Z. lia.
Qed.

Lemma or_text_empty (s : string) : Route.or_text s "" = s.
Proof. now destruct s. Qed.

(** The route rebuilds a form that the browser accepts as it is. *)
Lemma rebuild_validated (formData : HouseFormData.t) :
  Form.validateForm formData = true ->
  Route.rebuild formData = Some formData.
Proof.
  intros Hvalid.
  destruct (validateForm_inv _ Hvalid) as (Ht & _ & Hb & Ha & Hk).
  apply trim_truthy in Ht.
  destruct formData as [plot type b a k loc notes].
  cbn [HouseFormData.plotSize HouseFormData.bedrooms HouseFormData.bathrooms
       HouseFormData.kitchens] in *.
  unfold Route.rebuild.
  cbn [HouseFormData.plotSize HouseFormData.bedrooms HouseFormData.bathrooms
       HouseFormData.kitchens HouseFormData.houseType
       HouseFormData.locationType HouseFormData.extraNotes].
  rewrite !parseInt_whole_small by lia.
  rewrite or_text_empty. unfold Route.or_text, Route.or_count. rewrite Ht.
  replace (b =? 0)%Z with false by (symmetry; apply Z.eqb_neq; lia).
  replace (a =? 0)%Z with false by (symmetry; apply Z.eqb_neq; lia).
  replace (k =? 0)%Z with false by (symmetry; apply Z.eqb_neq; lia).
  reflexivity.
Qed.

(** X16: a form that the browser accepts is served by both routes: the
    validating route rebuilds it unchanged (no default is substituted),
    finds the plot and the counts in order, and answers with the layout
    and the tour, and so does the route that only asks for required
    fields. *)
Theorem validated_form_served (formData : HouseFormData.t)
    (Hvalid : Form.validateForm formData = true) :
  Route.rebuild formData = Some formData
  /\ Route.post_validated formData
     = Some (Route.success (generateHouse formData)
                           (tour_of_layout (generateHouse formData)))
  /\ Route.post_plain formData
     = Route.success (generateHouse formData)
                     (tour_of_layout (generateHouse formData)).
Proof.
  destruct (validateForm_inv _ Hvalid) as (Ht & _ & Hb & Ha & Hk).
  split; [ now apply rebuild_validated | ].
  unfold Route.post_validated. rewrite (rebuild_validated _ Hvalid).
  unfold Route.range_error, Route.post_plain.
  rewrite Ht, (trim_truthy _ Ht). cbn [negb].
  replace (HouseFormData.bedrooms formData <? 1)%Z with false
    by (symmetry; apply Z.ltb_ge; lia).
  replace (10 <? HouseFormData.bedrooms formData)%Z with false
    by (symmetry; apply Z.ltb_ge; lia).
  replace (HouseFormData.bathrooms formData <? 1)%Z with false
    by (symmetry; apply Z.ltb_ge; lia).
  replace (5 <? HouseFormData.bathrooms formData)%Z with false
    by (symmetry; apply Z.ltb_ge; lia).
  replace (HouseFormData.kitchens formData <? 1)%Z with false
    by (symmetry; apply Z.ltb_ge; lia).
  replace (3 <? HouseFormData.kitchens formData)%Z with false
    by (symmetry; apply Z.ltb_ge; lia).
  split; reflexivity.
Qed.


Lemma generateRooms_length (formData : HouseFormData.t)
    (dimensions : Dimensions.t) :
  List.length (generateRooms formData dimensions)
  = (2 + Z.to_nat (HouseFormData.kitchens formData)
     + Z.to_nat (HouseFormData.bedrooms formData)
     + Z.to_nat (HouseFormData.bathrooms formData)
     + (if dining_fits formData dimensions then 1 else 0))%nat.
Proof.
  rewrite <- (length_map Room.type), generateRooms_types.
  rewrite !length_app, !repeat_length.
  destruct (dining_fits formData dimensions); cbn [List.length]; lia.
Qed.

(** X18: a form that the browser accepts gives a house of 5 to 21 rooms, a
    tour of 6 to 22 waypoints, and at most 82 pieces of furniture. *)
Theorem validated_form_size (formData : HouseFormData.t)
    (Hvalid : Form.validateForm formData = true) :
  let layout := generateHouse formData in
  (5 <= List.length (HouseLayout.rooms layout) <= 21)%nat
  /\ (6 <= List.length (tour_of_layout layout) <= 22)%nat
  /\ (List.length (furniture_ids (HouseLayout.rooms layout)) <= 82)%nat.
Proof.
  intros layout. subst layout.
  destruct (validateForm_inv _ Hvalid) as (_ & _ & Hb & Ha & Hk).
  set (d := calculateHouseDimensions
              (parsePlotSize (HouseFormData.plotSize formData)) formData).
  assert (R : List.length (HouseLayout.rooms (generateHouse formData))
              = List.length (generateRooms formData d)).
  { unfold generateHouse, addFurniture. cbn [HouseLayout.rooms].
    now rewrite length_map. }
  assert (T : List.length (tour_of_layout (generateHouse formData))
              = S (List.length (generateRooms formData d))).
  { rewrite <- (length_map TourWaypoint.roomName), tour_labels_eq. fold d.
    rewrite <- (length_map room_label (generateRooms formData d)).
    rewrite generateRooms_labels, length_map, room_keys_visited.
    cbn [List.length]. rewrite !length_app, length_map. cbn [List.length].
    lia. }
  assert (F : List.length
                (furniture_ids (HouseLayout.rooms (generateHouse formData)))
              = List.length (flat_map pieces_of_key (room_keys formData d))).
  { unfold generateHouse. cbn [HouseLayout.rooms]. fold d.
    change (addFurniture (generateRooms formData d)
                         (HouseFormData.locationType formData))
      with (addFurniture (generateRooms formData d) city).
    rewrite (furniture_ids_of_keys _ _ (generateRooms_tags formData d)).
    apply length_map. }
  rewrite T, F, R, generateRooms_length.
  unfold room_keys.
  rewrite !flat_map_app, !length_app, !numbered_pieces.
  destruct (dining_fits formData d);
    cbn [flat_map pieces_of_key pieces_of fst map app List.length]; lia.
Qed.

End Validation.

(** The form of the specification's scenario is accepted and served. *)
Lemma validated_form_served_witness :
  Route.post_validated (HouseFormData.mk "20x30" single 2 1 1 city "")
  = Some (Route.success
            (generateHouse (HouseFormData.mk "20x30" single 2 1 1 city ""))
            (tour_of_layout
               (generateHouse
                  (HouseFormData.mk "20x30" single 2 1 1 city "")))).
Proof.
  exact (proj1 (proj2 (validated_form_served
                         (HouseFormData.mk "20x30" single 2 1 1 city "")
                         eq_refl))).
Defined.


(** The scenario of the specification: six rooms, seven waypoints. *)
Lemma validated_form_size_witness :
  (5 <= List.length
          (HouseLayout.rooms
             (generateHouse (HouseFormData.mk "20x30" single 2 1 1 city "")))
   <= 21)%nat.
Proof.
  exact (proj1 (validated_form_size
                  (HouseFormData.mk "20x30" single 2 1 1 city "") eq_refl)).
Defined.

(* ================================================================== *)
(** ** A blank plot size *)

Section BlankPlot.

Local Open Scope string_scope.

Lemma space_lower (c : ascii) :
  JS.is_space c = true -> JS.is_space (JS.lower_char c) = true.
Proof.
  destruct c as [[] [] [] [] [] [] [] []]; intros H; vm_compute in H;
    try discriminate H; reflexivity.
Qed.

Lemma trim_end_blank (s : string) :
  Form.trim_end s = "" -> JS.remove_spaces (JS.toLowerCase s) = "".
Proof.
  induction s as [ | c r IH ]; [ reflexivity | ].
  cbn [Form.trim_end JS.toLowerCase JS.remove_spaces].
  destruct (Form.trim_end r) as [ | c' r' ]; [ | discriminate ].
  destruct (JS.is_space c) eqn:Hc; [ | discriminate ].
  intros _. rewrite (space_lower c Hc). now apply IH.
Qed.

Lemma trim_start_blank (s : string) :
  JS.remove_spaces (JS.toLowerCase s)
  = JS.remove_spaces (JS.toLowerCase (JS.trim_start s)).
Proof.
  induction s as [ | c r IH ]; [ reflexivity | ].
  cbn [JS.trim_start]. destruct (JS.is_space c) eqn:Hc; [ | reflexivity ].
  cbn [JS.toLowerCase JS.remove_spaces]. now rewrite (space_lower c Hc).
Qed.

Lemma blank_normal (s : string) :
  Form.trim s = "" -> JS.remove_spaces (JS.toLowerCase s) = "".
Proof.
  unfold Form.trim. intros H. rewrite trim_start_blank.
  now apply trim_end_blank.
Qed.

Lemma parseInt_whole_plain (n : Z) :
  (Z.abs n < 10 ^ 21)%Z -> Route.parseInt_whole n = Some n.
Proof.
  intros H. unfold Route.parseInt_whole.
  now rewrite (proj2 (Z.ltb_lt _ _) H).
Qed.

(** X19: a plot size that is not empty but holds nothing except the
    one-byte white space characters (tab, line feed, vertical tab, form
    feed, carriage return, space, no-break space) passes the route that
    asks for required fields, which then builds the default house of 16 by
    24 for it; the validating route keeps the text when it rebuilds the
    form (it is not empty, so the default plot is not substituted) and
    refuses it with status 400, whatever the counts (taken below 10^21 in
    magnitude, where they print in plain decimal); the form refuses it
    too. *)
Theorem blank_plot_routes (formData : HouseFormData.t)
    (Hsome : Form.truthy_string (HouseFormData.plotSize formData) = true)
    (Hblank : Form.trim (HouseFormData.plotSize formData) = "")
    (Hbedrooms : (Z.abs (HouseFormData.bedrooms formData) < 10 ^ 21)%Z)
    (Hbathrooms : (Z.abs (HouseFormData.bathrooms formData) < 10 ^ 21)%Z)
    (Hkitchens : (Z.abs (HouseFormData.kitchens formData) < 10 ^ 21)%Z) :
  Route.post_plain formData
  = Route.success (generateHouse formData)
                  (tour_of_layout (generateHouse formData))
  /\ HouseLayout.width (generateHouse formData) = 16%float
  /\ HouseLayout.length (generateHouse formData) = 24%float
  /\ option_map HouseFormData.plotSize (Route.rebuild formData)
     = Some (HouseFormData.plotSize formData)
  /\ Route.post_validated formData
     = Some (Route.failure 400 "Plot size is required")
  /\ Form.validateForm formData = false.
Proof.
  assert (P : parsePlotSize (HouseFormData.plotSize formData)
              = PlotSize.mk 20%float 30%float).
  { unfold parsePlotSize. rewrite (blank_normal _ Hblank). reflexivity. }
  split; [ unfold Route.post_plain; now rewrite Hsome | ].
  unfold generateHouse, calculateHouseDimensions.
  cbn [HouseLayout.width HouseLayout.length Dimensions.width
       Dimensions.length].
  rewrite P. cbn [PlotSize.width PlotSize.length].
  split; [ vm_compute; reflexivity | ].
  split; [ vm_compute; reflexivity | ].
  unfold Route.post_validated, Route.rebuild.
  rewrite !parseInt_whole_plain by assumption.
  unfold Route.or_text at 1 3. rewrite Hsome.
  cbn [option_map HouseFormData.plotSize].
  split; [ reflexivity | ].
  unfold Route.range_error, Form.validateForm, Form.form_errors.
  cbn [HouseFormData.plotSize].
  rewrite Hblank. split; reflexivity.
Qed.

End BlankPlot.

(** A plot size of three blanks. *)
Lemma blank_plot_routes_witness :
  HouseLayout.width
    (generateHouse (HouseFormData.mk "   " single 2 1 1 city ""))
  = 16%float
  /\ Route.post_validated (HouseFormData.mk "   " single 2 1 1 city "")
     = Some (Route.failure 400 "Plot size is required").
Proof.
  assert (B : forall n : Z, (Z.abs n <? 10 ^ 21)%Z = true
                            -> (Z.abs n < 10 ^ 21)%Z).
  { intros n. apply Z.ltb_lt. }
  destruct (blank_plot_routes
              (HouseFormData.mk "   " single 2 1 1 city "") eq_refl eq_refl
              (B 2%Z eq_refl) (B 1%Z eq_refl) (B 1%Z eq_refl))
    as (_ & W & _ & _ & V & _).
  split; [ exact W | exact V ].
Defined.

(* ================================================================== *)
(** ** The defaults of the validating route *)

Section Defaults.

Local Open Scope string_scope.
Local Open Scope Z_scope.

Lemma or_count_range (n d lo hi : Z) :
  lo <= d <= hi -> n = 0 \/ lo <= n <= hi ->
  lo <= Route.or_count n d <= hi.
Proof.
  intros Hd H. unfold Route.or_count.
  destruct (Z.eqb_spec n 0); lia.
Qed.

Lemma validateForm_refuses (formData : HouseFormData.t) :
  HouseFormData.plotSize formData = ""
  \/ HouseFormData.bedrooms formData = 0
  \/ HouseFormData.bathrooms formData = 0
  \/ HouseFormData.kitchens formData = 0 ->
  Form.validateForm formData = false.
Proof.
  intros H. destruct (Form.validateForm formData) eqn:V; [ | reflexivity ].
  destruct (validateForm_inv _ V) as (Ht & _ & Hb & Ha & Hk).
  destruct H as [ H | [ H | [ H | H ] ] ]; try lia.
  rewrite H in Ht. discriminate Ht.
Qed.

(** X27: the validating route does not refuse an empty plot size or a count
    of zero: it substitutes its defaults first. For a body whose plot size
    is empty or has something left after trimming, and whose counts are
    each zero or in their range, the form built has the plot "20x30" for
    an empty one, 2 bedrooms, 1 bathroom, 1 kitchen for a zero count, and
    every other field of the body; the answer is the layout and the tour
    of that form. The route that asks for required fields refuses the
    empty plot, and the form of the page refuses the empty plot and each
    zero count. *)
Theorem post_validated_defaults
    (plot : string) (type : HouseType) (bedrooms bathrooms kitchens : Z)
    (location : LocationType) (notes : string)
    (Hplot : plot = "" \/ Form.truthy_string (Form.trim plot) = true)
    (Hbedrooms : bedrooms = 0 \/ 1 <= bedrooms <= 10)
    (Hbathrooms : bathrooms = 0 \/ 1 <= bathrooms <= 5)
    (Hkitchens : kitchens = 0 \/ 1 <= kitchens <= 3) :
  let body :=
    HouseFormData.mk plot type bedrooms bathrooms kitchens location notes in
  let formData :=
    HouseFormData.mk
      (match plot with EmptyString => "20x30" | _ => plot end) type
      (if bedrooms =? 0 then 2 else bedrooms)
      (if bathrooms =? 0 then 1 else bathrooms)
      (if kitchens =? 0 then 1 else kitchens) location notes in
  Route.rebuild body = Some formData
  /\ Route.post_validated body
     = Some (Route.success (generateHouse formData)
                           (tour_of_layout (generateHouse formData)))
  /\ (plot = "" ->
      Route.post_plain body = Route.failure 400 "Missing required fields")
  /\ (plot = "" \/ bedrooms = 0 \/ bathrooms = 0 \/ kitchens = 0 ->
      Form.validateForm body = false).
Proof.
  intros body formData.
  assert (R : Route.rebuild body = Some formData).
  { unfold Route.rebuild, body.
    cbn [HouseFormData.plotSize HouseFormData.bedrooms
         HouseFormData.bathrooms HouseFormData.kitchens
         HouseFormData.houseType HouseFormData.locationType
         HouseFormData.extraNotes].
    rewrite !parseInt_whole_small by lia.
    rewrite or_text_empty. unfold formData, Route.or_count.
    f_equal. f_equal. now destruct plot. }
  split; [ exact R | ].
  split.
  - unfold Route.post_validated. rewrite R.
    assert (T : Form.truthy_string (Form.trim (HouseFormData.plotSize formData))
                = true).
    { unfold formData. cbn [HouseFormData.plotSize].
      destruct Hplot as [ -> | Ht ]; [ reflexivity | ].
      destruct plot; [ discriminate Ht | exact Ht ]. }
    pose proof (or_count_range bedrooms 2 1 10 ltac:(lia) Hbedrooms) as Bb.
    pose proof (or_count_range bathrooms 1 1 5 ltac:(lia) Hbathrooms) as Ba.
    pose proof (or_count_range kitchens 1 1 3 ltac:(lia) Hkitchens) as Bk.
    unfold Route.or_count in Bb, Ba, Bk.
    unfold Route.range_error. rewrite T. cbn [negb].
    unfold formData at 1 2 3 4 5 6.
    cbn [HouseFormData.bedrooms HouseFormData.bathrooms
         HouseFormData.kitchens].
    rewrite (proj2 (Z.ltb_ge _ 1) (proj1 Bb)).
    rewrite (proj2 (Z.ltb_ge 10 _) (proj2 Bb)).
    rewrite (proj2 (Z.ltb_ge _ 1) (proj1 Ba)).
    rewrite (proj2 (Z.ltb_ge 5 _) (proj2 Ba)).
    rewrite (proj2 (Z.ltb_ge _ 1) (proj1 Bk)).
    rewrite (proj2 (Z.ltb_ge 3 _) (proj2 Bk)).
    reflexivity.
  - split.
    + intros ->. reflexivity.
    + intros H. apply validateForm_refuses. exact H.
Qed.

End Defaults.

(** A body with no plot size and no counts is served as the default form. *)
Lemma post_validated_defaults_witness :
  Route.post_validated (HouseFormData.mk "" single 0 0 0 city "")
  = Some (Route.success
            (generateHouse (HouseFormData.mk "20x30" single 2 1 1 city ""))
            (tour_of_layout
               (generateHouse
                  (HouseFormData.mk "20x30" single 2 1 1 city ""))))
  /\ Route.post_plain (HouseFormData.mk "" single 0 0 0 city "")
     = Route.failure 400 "Missing required fields".
Proof.
  destruct (post_validated_defaults "" single 0 0 0 city ""
              (or_introl eq_refl) (or_introl eq_refl) (or_introl eq_refl)
              (or_introl eq_refl))
    as (_ & V & P & _).
  split; [ exact V | exact (P eq_refl) ].
Defined.

(* ================================================================== *)
(** ** The room breakdown of the viewer *)

Section Breakdown.

Import Viewer.
Local Open Scope Z_scope.

Lemma RoomType_eqb_eq (a b : RoomType) : RoomType_eqb a b = true <-> a = b.
Proof. destruct a, b; cbn; split; intros H; try discriminate; reflexivity. Qed.

Lemma RoomType_eqb_refl (a : RoomType) : RoomType_eqb a a = true.
Proof. now apply RoomType_eqb_eq. Qed.

Lemma RoomType_eqb_neq (a b : RoomType) : RoomType_eqb a b = false <-> a <> b.
Proof.
  split.
  - intros H E. apply RoomType_eqb_eq in E. congruence.
  - intros H. destruct (RoomType_eqb a b) eqn:E; [ | reflexivity ].
    apply RoomType_eqb_eq in E. contradiction.
Qed.

Lemma get_set_same (acc : counts) (t : RoomType) (v : Z) :
  get (set acc t v) t = Some v.
Proof.
  induction acc as [ | [k n] acc IH ]; cbn [set get].
  - now rewrite RoomType_eqb_refl.
  - destruct (RoomType_eqb k t) eqn:E; cbn [get]; now rewrite E.
Qed.

Lemma get_set_other (acc : counts) (t u : RoomType) (v : Z) :
  t <> u -> get (set acc t v) u = get acc u.
Proof.
  intros H. induction acc as [ | [k n] acc IH ]; cbn [set get].
  - now apply RoomType_eqb_neq in H as ->.
  - destruct (RoomType_eqb k t) eqn:E; cbn [get].
    + apply RoomType_eqb_eq in E. subst k.
      now apply RoomType_eqb_neq in H as ->.
    + now rewrite IH.
Qed.

Lemma set_keys (acc : counts) (t : RoomType) (v : Z) :
  map fst (set acc t v)
  = if existsb (fun k => RoomType_eqb k t) (map fst acc)
    then map fst acc else map fst acc ++ [t].
Proof.
  induction acc as [ | [k n] acc IH ]; cbn [set map fst existsb app].
  - reflexivity.
  - destruct (RoomType_eqb k t) eqn:E; cbn [map fst orb].
    + reflexivity.
    + rewrite IH. now destruct (existsb _ _).
Qed.

Lemma roomBreakdown_snoc (rooms : list Room.t) (r : Room.t) :
  roomBreakdown (rooms ++ [r]) = tally (roomBreakdown rooms) r.
Proof. unfold roomBreakdown. now rewrite fold_left_app. Qed.

Lemma rooms_of_snoc (t : RoomType) (rooms : list Room.t) (r : Room.t) :
  rooms_of t (rooms ++ [r])
  = rooms_of t rooms + (if RoomType_eqb (Room.type r) t then 1 else 0).
Proof.
  unfold rooms_of. rewrite filter_app, length_app. cbn [filter].
  destruct (RoomType_eqb (Room.type r) t); cbn [List.length]; lia.
Qed.

Lemma rooms_of_nonneg (t : RoomType) (rooms : list Room.t) :
  0 <= rooms_of t rooms.
Proof. unfold rooms_of. lia. Qed.

Lemma roomBreakdown_get (rooms : list Room.t) (t : RoomType) :
  get (roomBreakdown rooms) t
  = if rooms_of t rooms =? 0 then None else Some (rooms_of t rooms).
Proof.
  induction rooms as [ | r rooms IH ] using rev_ind; [ reflexivity | ].
  rewrite roomBreakdown_snoc, rooms_of_snoc. unfold tally.
  pose proof (rooms_of_nonneg t rooms) as N.
  destruct (RoomType_eqb (Room.type r) t) eqn:E.
  - apply RoomType_eqb_eq in E. subst t.
    rewrite get_set_same, IH.
    destruct (rooms_of (Room.type r) rooms =? 0) eqn:Z0.
    + apply Z.eqb_eq in Z0. rewrite Z0. reflexivity.
    + apply Z.eqb_neq in Z0.
      replace (rooms_of (Room.type r) rooms + 1 =? 0) with false
        by (symmetry; apply Z.eqb_neq; lia).
      unfold or_zero.
      replace (rooms_of (Room.type r) rooms =? 0) with false
        by (symmetry; apply Z.eqb_neq; lia).
      reflexivity.
  - apply RoomType_eqb_neq in E.
    rewrite get_set_other by exact E. rewrite IH, Z.add_0_r. reflexivity.
Qed.

Lemma or_zero_some (n : Z) : or_zero (Some n) = n.
Proof.
  unfold or_zero. destruct (n =? 0) eqn:E; [ | reflexivity ].
  apply Z.eqb_eq in E. now subst n.
Qed.

Lemma tally_total (acc : counts) (t : RoomType) :
  fold_right Z.add 0 (map snd (set acc t (or_zero (get acc t) + 1)))
  = fold_right Z.add 0 (map snd acc) + 1.
Proof.
  induction acc as [ | [k n] acc IH ]; cbn [set get map snd fold_right].
  - reflexivity.
  - destruct (RoomType_eqb k t); cbn [map snd fold_right].
    + rewrite or_zero_some. lia.
    + rewrite IH. lia.
Qed.

(** X20: the breakdown shows, for each category, the number of rooms of that
    category, and no entry for a category without rooms; the numbers it
    shows add up to the number of rooms. *)
Theorem roomBreakdown_counts (rooms : list Room.t) (t : RoomType) :
  get (roomBreakdown rooms) t
  = (if rooms_of t rooms =? 0 then None else Some (rooms_of t rooms))
  /\ fold_right Z.add 0 (map snd (roomBreakdown rooms))
     = Z.of_nat (List.length rooms).
Proof.
  split; [ apply roomBreakdown_get | ].
  induction rooms as [ | r rooms IH ] using rev_ind; [ reflexivity | ].
  rewrite roomBreakdown_snoc. unfold tally.
  rewrite tally_total, IH, length_app. cbn [List.length]. lia.
Qed.

Lemma existsb_In (t : RoomType) (l : list RoomType) :
  existsb (fun k => RoomType_eqb k t) l = true <-> In t l.
Proof.
  rewrite existsb_exists. split.
  - intros (k & Hk & E). apply RoomType_eqb_eq in E. now subst k.
  - intros H. exists t. split; [ exact H | apply RoomType_eqb_refl ].
Qed.

(** X21: each category appears at most once in the breakdown, and exactly
    the categories of the rooms appear. *)
Theorem roomBreakdown_keys (rooms : list Room.t) :
  NoDup (map fst (roomBreakdown rooms))
  /\ forall t, In t (map fst (roomBreakdown rooms))
               <-> In t (map Room.type rooms).
Proof.
  induction rooms as [ | r rooms (IHn & IHk) ] using rev_ind.
  - split; [ constructor | reflexivity ].
  - rewrite roomBreakdown_snoc. unfold tally. rewrite set_keys.
    destruct (existsb _ _) eqn:E.
    + apply existsb_In in E. split; [ exact IHn | ].
      intros t. rewrite map_app, in_app_iff, IHk. cbn [map In].
      split; [ auto | ].
      intros [ H | [ <- | [] ] ]; [ exact H | now apply IHk ].
    + assert (N : ~ In (Room.type r) (map fst (roomBreakdown rooms))).
      { intros H. apply existsb_In in H. congruence. }
      split.
      * apply NoDup_app; [ exact IHn | repeat constructor; intros [] | ].
        intros t Ht [ <- | [] ]. exact (N Ht).
      * intros t. rewrite map_app, !in_app_iff, IHk. reflexivity.
Qed.

Lemma rooms_of_types (t : RoomType) (rooms : list Room.t) :
  rooms_of t rooms
  = Z.of_nat (List.length
                (filter (fun x => RoomType_eqb x t) (map Room.type rooms))).
Proof.
  unfold rooms_of. now rewrite filter_map_swap, length_map.
Qed.

Lemma filter_repeat (p : RoomType -> bool) (a : RoomType) (n : nat) :
  filter p (repeat a n) = if p a then repeat a n else [].
Proof.
  induction n as [ | n IH ]; cbn [repeat filter].
  - now destruct (p a).
  - rewrite IH. now destruct (p a).
Qed.

(** X22: the breakdown of a generated house shows the counts that were asked
    for: one living room and one hallway, the kitchens, bedrooms and
    bathrooms of the form (no line for a count of zero), and a dining
    room when one fits. *)
Theorem generated_breakdown (formData : HouseFormData.t)
    (Hk : 0 <= HouseFormData.kitchens formData)
    (Hb : 0 <= HouseFormData.bedrooms formData)
    (Ha : 0 <= HouseFormData.bathrooms formData) :
  let shown :=
    get (roomBreakdown (HouseLayout.rooms (generateHouse formData))) in
  let dimensions :=
    calculateHouseDimensions
      (parsePlotSize (HouseFormData.plotSize formData)) formData in
  shown living = Some 1
  /\ shown hallway = Some 1
  /\ shown kitchen
     = (if HouseFormData.kitchens formData =? 0 then None
        else Some (HouseFormData.kitchens formData))
  /\ shown bedroom
     = (if HouseFormData.bedrooms formData =? 0 then None
        else Some (HouseFormData.bedrooms formData))
  /\ shown bathroom
     = (if HouseFormData.bathrooms formData =? 0 then None
        else Some (HouseFormData.bathrooms formData))
  /\ shown dining
     = (if Plan.dining_fits formData dimensions then Some 1 else None).
Proof.
  intros shown dimensions.
  assert (C : forall t,
             rooms_of t (HouseLayout.rooms (generateHouse formData))
             = Z.of_nat
                 (List.length
                    (filter (fun x => RoomType_eqb x t)
                       (map Room.type (generateRooms formData dimensions))))).
  { intros t. rewrite rooms_of_types. unfold generateHouse, addFurniture.
    cbn [HouseLayout.rooms]. fold dimensions. now rewrite map_map. }
  unfold shown.
  repeat split; rewrite roomBreakdown_get, C, generateRooms_types;
    rewrite !filter_app, !filter_repeat, !length_app;
    cbn [RoomType_eqb filter];
    destruct (Plan.dining_fits formData dimensions);
    cbn [RoomType_eqb filter List.length]; rewrite ?repeat_length;
    try reflexivity.
  all: match goal with
       | |- context [?k =? 0] =>
           destruct (k =? 0) eqn:E;
           [ apply Z.eqb_eq in E; rewrite E; reflexivity
           | apply Z.eqb_neq in E ]
       end.
  all: match goal with
       | |- (if ?c then _ else _) = _ =>
           replace c with false by (symmetry; apply Z.eqb_neq; lia)
       end; f_equal; lia.
Qed.

End Breakdown.

(** The scenario of the specification shows two bedrooms and no dining
    room. *)
Lemma generated_breakdown_witness :
  Viewer.get
    (Viewer.roomBreakdown
       (HouseLayout.rooms
          (generateHouse (HouseFormData.mk "20x30" single 2 1 1 city ""))))
    bedroom = Some 2
  /\ Viewer.get
       (Viewer.roomBreakdown
          (HouseLayout.rooms
             (generateHouse (HouseFormData.mk "20x30" single 2 1 1 city ""))))
       dining = None.
Proof.
  assert (P : forall z, (0 <=? z)%Z = true -> (0 <= z)%Z)
    by (intros z; apply Z.leb_le).
  destruct (generated_breakdown
              (HouseFormData.mk "20x30" single 2 1 1 city "")
              (P 1%Z eq_refl) (P 2%Z eq_refl) (P 1%Z eq_refl))
    as (_ & _ & _ & B & _ & D).
  split; [ exact B | exact D ].
Defined.

(* ================================================================== *)
(** ** Lenient inputs: blanks, case, negative counts *)

Section Leniency.

Local Open Scope string_scope.

Lemma toLowerCase_app (a b : string) :
  JS.toLowerCase (a ++ b) = JS.toLowerCase a ++ JS.toLowerCase b.
Proof. induction a as [ | c r IH ]; cbn; congruence. Qed.

Lemma remove_spaces_app (a b : string) :
  JS.remove_spaces (a ++ b) = JS.remove_spaces a ++ JS.remove_spaces b.
Proof.
  induction a as [ | c r IH ]; cbn [String.append JS.remove_spaces].
  - reflexivity.
  - destruct (JS.is_space c); cbn [String.append]; congruence.
Qed.

Lemma parsePlotSize_normal (s t : string) :
  JS.remove_spaces (JS.toLowerCase s) = JS.remove_spaces (JS.toLowerCase t) ->
  parsePlotSize s = parsePlotSize t.
Proof. unfold parsePlotSize. now intros ->. Qed.

Lemma is_space_codes (c : ascii) :
  JS.is_space c = true ->
  In (nat_of_ascii c) [9; 10; 11; 12; 13; 32; 160]%nat.
Proof.
  unfold JS.is_space. cbv zeta. intros H.
  apply Bool.orb_true_iff in H. destruct H as [ H | H ].
  - apply Bool.orb_true_iff in H. destruct H as [ H | H ].
    + apply Bool.andb_true_iff in H. destruct H as (L & U).
      apply Nat.leb_le in L. apply Nat.leb_le in U.
      cbn [In]. lia.
    + apply Nat.eqb_eq in H. cbn [In]. lia.
  - apply Nat.eqb_eq in H. cbn [In]. lia.
Qed.

(** X23: in a text of one-byte code units, a white space character that
    the parser strips is one of the seven with code 9 to 13 (tab, line
    feed, vertical tab, form feed, carriage return), 32 (space) or 160
    (no-break space), and such a character is ignored wherever it stands,
    even inside a number; so is the case of the separator: "X" can be
    written for "x" without changing the plot. (White space beyond one
    byte is outside the texts modelled here.) *)
Theorem parsePlotSize_insensitive (a b : string) (c : ascii)
    (Hc : JS.is_space c = true) :
  parsePlotSize (a ++ String c b) = parsePlotSize (a ++ b)
  /\ parsePlotSize (a ++ String "X" b) = parsePlotSize (a ++ String "x" b)
  /\ In (nat_of_ascii c) [9; 10; 11; 12; 13; 32; 160]%nat.
Proof.
  split; [ | split ]; [ | | now apply is_space_codes ];
    apply parsePlotSize_normal;
    rewrite !toLowerCase_app, !remove_spaces_app;
    cbn [JS.toLowerCase JS.remove_spaces].
  - now rewrite (space_lower c Hc).
  - reflexivity.
Qed.

(** X24: a kitchen count below zero, on its own, gives the rooms of no
    kitchen, whatever the other counts are; and a bathroom count below
    zero, on its own, gives the rooms of no bathroom: the loop of that
    count does not run. *)
Theorem generateRooms_negative_counts
    (plot : string) (type : HouseType) (bedrooms bathrooms kitchens : Z)
    (location : LocationType) (notes : string) (dimensions : Dimensions.t) :
  ((kitchens <= 0)%Z ->
   generateRooms
     (HouseFormData.mk plot type bedrooms bathrooms kitchens location notes)
     dimensions
   = generateRooms
       (HouseFormData.mk plot type bedrooms bathrooms 0 location notes)
       dimensions)
  /\ ((bathrooms <= 0)%Z ->
      generateRooms
        (HouseFormData.mk plot type bedrooms bathrooms kitchens location
                          notes)
        dimensions
      = generateRooms
          (HouseFormData.mk plot type bedrooms 0 kitchens location notes)
          dimensions).
Proof.
  split; intros H;
    unfold generateRooms, after_kitchens, for_loop, room_divisor;
    cbn [HouseFormData.kitchens HouseFormData.bathrooms
         HouseFormData.bedrooms].
  - replace (Z.to_nat kitchens) with 0%nat by lia. reflexivity.
  - replace (Z.to_nat bathrooms) with 0%nat by lia. reflexivity.
Qed.

End Leniency.

(** The text "2 0X30" is the plot "20x30". *)
Lemma parsePlotSize_insensitive_witness :
  parsePlotSize "2 0X30" = PlotSize.mk 20%float 30%float.
Proof.
  destruct (parsePlotSize_insensitive "2" "0X30" " " eq_refl) as (E & _).
  cbn [String.append] in E. rewrite E.
  destruct (parsePlotSize_insensitive "20" "30" " " eq_refl) as (_ & F & _).
  cbn [String.append] in F. rewrite F.
  vm_compute. reflexivity.
Defined.

(** Minus three kitchens with one bathroom, and minus one bathroom with
    one kitchen. *)
Lemma generateRooms_negative_counts_witness :
  map Room.id
    (generateRooms (HouseFormData.mk "20x30" single 2 1 (-3) city "")
                   (Dimensions.mk 16 24 3))
  = ["living-1"; "bedroom-1"; "bedroom-2"; "bathroom-1";
     "hallway-1"]%string
  /\ map Room.id
       (generateRooms (HouseFormData.mk "20x30" single 2 (-1) 1 city "")
                      (Dimensions.mk 16 24 3))
     = ["living-1"; "kitchen-1"; "bedroom-1"; "bedroom-2";
        "hallway-1"]%string.
Proof.
  split.
  - rewrite (proj1 (generateRooms_negative_counts "20x30" single 2 1 (-3)
                      city "" (Dimensions.mk 16 24 3))); [ | lia ].
    vm_compute. reflexivity.
  - rewrite (proj2 (generateRooms_negative_counts "20x30" single 2 (-1) 1
                      city "" (Dimensions.mk 16 24 3))); [ | lia ].
    vm_compute. reflexivity.
Defined.

(* ================================================================== *)
(** ** Wrapping rows *)

Section Wrapping.

Import Plan Catalogue.
Local Open Scope float_scope.

Variable formData : HouseFormData.t.
Variable dimensions : Dimensions.t.

Local Abbreviation uw := (roomWidth formData dimensions).
Local Abbreviation ul := (roomLength formData dimensions).
Local Abbreviation placed :=
  (wrapped_or_fits uw (Dimensions.width dimensions)).

(** After the wrapping test the cursor is at the start of a row, or one
    more unit fits. *)
Lemma wrap_row_cursor (st : cursor) :
  currentX (wrap_row dimensions uw ul st) = 0
  \/ (Dimensions.width dimensions
      <? currentX (wrap_row dimensions uw ul st) + uw) = false.
Proof.
  unfold wrap_row.
  destruct (Dimensions.width dimensions <? currentX st + uw) eqn:E.
  - left. reflexivity.
  - right. exact E.
Qed.

Lemma placed_bedroom (st : cursor) (i : nat) :
  Forall placed (rooms st) ->
  Forall placed (rooms (bedroom_body dimensions uw ul st i)).
Proof.
  intros H. unfold bedroom_body, push. cbn [rooms].
  rewrite wrap_row_rooms. apply Forall_app. split; [ exact H | ].
  constructor; [ | constructor ].
  unfold wrapped_or_fits. cbn [Room.type Room.position Position.x].
  apply wrap_row_cursor.
Qed.

Lemma placed_bathroom (st : cursor) (i : nat) :
  Forall placed (rooms st) ->
  Forall placed (rooms (bathroom_body dimensions uw ul st i)).
Proof.
  intros H. unfold bathroom_body, push. cbn [rooms].
  rewrite wrap_row_rooms. apply Forall_app. split; [ exact H | ].
  constructor; [ | constructor ].
  unfold wrapped_or_fits. cbn [Room.type Room.position Position.x].
  apply wrap_row_cursor.
Qed.

Lemma placed_kitchen (st : cursor) (i : nat) :
  Forall placed (rooms st) ->
  Forall placed (rooms (kitchen_body uw ul st i)).
Proof.
  intros H. unfold kitchen_body, push. cbn [rooms].
  apply Forall_app. split; [ exact H | ].
  repeat constructor.
Qed.

(** X25: every bedroom and every bathroom of the room list is placed at
    x = 0, or at an x for which the wrapping test, house width < x + unit
    width, is false. *)
Theorem generateRooms_wrapped :
  Forall placed (generateRooms formData dimensions).
Proof.
  unfold generateRooms.
  change (Dimensions.width dimensions / room_divisor formData) with uw.
  change (Dimensions.length dimensions / room_divisor formData) with ul.
  unfold push at 1. cbn [rooms].
  apply Forall_app. split; [ | repeat constructor ].
  unfold for_loop.
  apply (fold_Forall _ _ placed_bathroom).
  apply (fold_Forall _ _ placed_bedroom). cbn [rooms].
  rewrite dining_step_rooms.
  apply Forall_app. split.
  - unfold after_kitchens, for_loop.
    apply (fold_Forall _ _ placed_kitchen). cbn [rooms push].
    repeat constructor.
  - destruct (dining_fits formData dimensions); repeat constructor.
Qed.

End Wrapping.

(* ================================================================== *)
(** ** The form accepts plots written in digits *)

Section Acceptance.

Import PlotSpec.
Local Open Scope string_scope.

Lemma remove_spaces_length (s : string) :
  (String.length (JS.remove_spaces s) <= String.length s)%nat.
Proof.
  induction s as [ | c r IH ]; cbn [JS.remove_spaces String.length].
  - lia.
  - destruct (JS.is_space c); cbn [String.length]; lia.
Qed.

(** A text without white space is its own trimming. *)
Lemma trim_without_spaces (s : string) :
  JS.remove_spaces s = s -> Form.trim s = s.
Proof.
  intros H. unfold Form.trim.
  assert (S : JS.trim_start s = s).
  { destruct s as [ | c r ]; [ reflexivity | ].
    cbn [JS.trim_start JS.remove_spaces] in *.
    destruct (JS.is_space c); [ | reflexivity ].
    exfalso. pose proof (remove_spaces_length r) as L.
    rewrite H in L. cbn [String.length] in L. lia. }
  rewrite S. clear S.
  induction s as [ | c r IH ]; [ reflexivity | ].
  cbn [JS.remove_spaces] in H. cbn [Form.trim_end].
  destruct (JS.is_space c).
  - exfalso. pose proof (remove_spaces_length r) as L.
    rewrite H in L. cbn [String.length] in L. lia.
  - injection H as H. rewrite (IH H). now destruct r.
Qed.

Lemma digits_no_spaces (s : string) :
  all_digits s = true -> JS.remove_spaces s = s.
Proof.
  induction s as [ | c r IH ]; intros H; [ reflexivity | ].
  cbn [all_digits] in H. cbn [JS.remove_spaces].
  destruct (JS.digit_of c) as [ d | ] eqn:E; [ | discriminate H ].
  destruct (digit_char c d E) as (-> & _). now rewrite IH.
Qed.

Lemma skip_digits_all (a rest : string) (len : nat) :
  all_digits a = true ->
  match rest with
  | String c _ => JS.digit_of c = None
  | EmptyString => True
  end ->
  Form.skip_digits (a ++ rest) len = ((len + String.length a)%nat, rest).
Proof.
  intros Ha Hr. revert len. induction a as [ | c r IH ]; intros len.
  - cbn [String.append String.length]. rewrite Nat.add_0_r.
    destruct rest as [ | c r ]; [ reflexivity | ].
    cbn [Form.skip_digits]. now rewrite Hr.
  - cbn [all_digits] in Ha.
    cbn [String.append Form.skip_digits String.length].
    destruct (JS.digit_of c); [ | discriminate Ha ].
    rewrite (IH Ha). f_equal. lia.
Qed.

Lemma nonempty_positive (s : string) :
  nonempty s = true -> exists n, String.length s = S n.
Proof. destruct s; [ discriminate | cbn; eauto ]. Qed.

Lemma accepts_digits (s : string) :
  nonempty s = true -> all_digits s = true ->
  Form.truthy_string (Form.trim s) = true
  /\ Form.matches_plot_pattern (JS.remove_spaces (JS.toLowerCase s)) = true.
Proof.
  intros Hn Hd. split.
  - rewrite (trim_without_spaces s (digits_no_spaces s Hd)).
    now destruct s.
  - rewrite (normal_digits s Hd). unfold Form.matches_plot_pattern.
    rewrite <- (append_empty_r s) at 1.
    rewrite (skip_digits_all s "" 0 Hd I).
    destruct (nonempty_positive s Hn) as (n & ->). reflexivity.
Qed.

Lemma accepts_digits_x (a b : string) :
  nonempty a = true -> all_digits a = true ->
  nonempty b = true -> all_digits b = true ->
  Form.truthy_string (Form.trim (a ++ String "x" b)) = true
  /\ Form.matches_plot_pattern
       (JS.remove_spaces (JS.toLowerCase (a ++ String "x" b))) = true.
Proof.
  intros Na Da Nb Db. split.
  - rewrite trim_without_spaces.
    + destruct a; [ discriminate Na | reflexivity ].
    + rewrite remove_spaces_app. cbn [JS.remove_spaces].
      change (JS.is_space "x") with false. cbv iota.
      now rewrite !digits_no_spaces.
  - rewrite (normal_digits_x a b Da Db). unfold Form.matches_plot_pattern.
    rewrite (skip_digits_all a (String "x" b) 0 Da eq_refl).
    destruct (nonempty_positive a Na) as (n & ->). cbn [Nat.add].
    change (Ascii.eqb "x" "x") with true. cbv iota.
    rewrite <- (append_empty_r b) at 1.
    rewrite (skip_digits_all b "" 0 Db I).
    destruct (nonempty_positive b Nb) as (m & ->). reflexivity.
Qed.

(** X26: the form accepts every plot written as a whole number, or as two
    whole numbers around an "x", when the counts are in their ranges
    (bedrooms 1 to 10, bathrooms 1 to 5, kitchens 1 to 3). *)
Theorem validateForm_accepts (w l : nat) (type : HouseType)
    (bedrooms bathrooms kitchens : Z) (location : LocationType)
    (notes : string)
    (Hb : (1 <= bedrooms <= 10)%Z) (Ha : (1 <= bathrooms <= 5)%Z)
    (Hk : (1 <= kitchens <= 3)%Z) :
  Form.validateForm
    (HouseFormData.mk (JS.string_of_index w ++ "x" ++ JS.string_of_index l)
                      type bedrooms bathrooms kitchens location notes)
  = true
  /\ Form.validateForm
       (HouseFormData.mk (JS.string_of_index w)
                         type bedrooms bathrooms kitchens location notes)
     = true.
Proof.
  destruct (string_of_index_digits w) as (Nw & Dw & _).
  destruct (string_of_index_digits l) as (Nl & Dl & _).
  assert (R : forall plot,
             Form.truthy_string (Form.trim plot) = true
             /\ Form.matches_plot_pattern
                  (JS.remove_spaces (JS.toLowerCase plot)) = true ->
             Form.validateForm
               (HouseFormData.mk plot type bedrooms bathrooms kitchens
                                 location notes) = true).
  { intros plot (Ht & Hm).
    unfold Form.validateForm, Form.no_errors, Form.form_errors.
    cbn [HouseFormData.plotSize HouseFormData.bedrooms
         HouseFormData.bathrooms HouseFormData.kitchens].
    rewrite Ht, Hm.
    replace (bedrooms <? 1)%Z with false by (symmetry; apply Z.ltb_ge; lia).
    replace (10 <? bedrooms)%Z with false by (symmetry; apply Z.ltb_ge; lia).
    replace (bathrooms <? 1)%Z with false by (symmetry; apply Z.ltb_ge; lia).
    replace (5 <? bathrooms)%Z with false by (symmetry; apply Z.ltb_ge; lia).
    replace (kitchens <? 1)%Z with false by (symmetry; apply Z.ltb_ge; lia).
    replace (3 <? kitchens)%Z with false by (symmetry; apply Z.ltb_ge; lia).
    reflexivity. }
  split; apply R.
  - change (JS.string_of_index w ++ "x" ++ JS.string_of_index l)
      with (JS.string_of_index w ++ String "x" (JS.string_of_index l)).
    now apply accepts_digits_x.
  - now apply accepts_digits.
Qed.

End Acceptance.

(** The plot "20x30" of the specification's scenario is accepted. *)
Lemma validateForm_accepts_witness :
  Form.validateForm (HouseFormData.mk "20x30" single 2 1 1 city "") = true.
Proof.
  refine (proj1 (validateForm_accepts 20 30 single 2 1 1 city "" _ _ _));
    lia.
Defined.
